(** * NLPScholar trainers: label alignment, metric filtering and orchestration

    A shallow embedding of
      - src/trainers/HFTextClassificationTrainer.py
      - src/trainers/HFTokenClassificationTrainer.py
    The tokenizer, the dataset objects, numpy's argmax, the metric
    implementations and the HuggingFace trainer are collaborators that the
    two files call but do not define; they appear as parameters. *)

From stdpp Require Import gmap strings list fin_maps.

Open Scope Z_scope.

(** ** Python values that occur in a batch *)

(** A label as Python sees it in a cell: an [int] or a [str]. *)
Inductive label_value :=
| LInt (z : Z)
| LStr (s : string).

(** A cell of a batch column: a scalar (text, class label) or a sequence
    (the words of a pre-split sentence, its per-word tags, token ids). *)
Inductive cell :=
| Scalar (x : label_value)
| Seq (xs : list label_value).

(** [examples]: the dict of columns that [Dataset.map(..., batched=True)]
    hands to [preprocess_function]. *)
Abbreviation batch := (gmap string (list cell)).

(** ** Exceptions and effects *)

Inductive exn :=
| KeyError (k : string)     (* dict lookup with an absent key *)
| IndexError                (* sequence index out of range *)
| TypeError                 (* unhashable key, subscript of an int, None['train'] *)
| External (msg : string).  (* raised inside a collaborator *)

(** What the code does to the outside world, in order: its writes to
    stderr and its calls into the dataset and training libraries. A call
    is recorded when it is made, whether it then returns or raises. *)
Inductive event :=
| EStderr (s : string)        (* sys.stderr.write(s) *)
| ESetDataset                 (* self.set_dataset() *)
| EMap                        (* self.dataset.map(self.preprocess_function, batched=True) *)
| EShuffle (seed : option Z)  (* self.dataset.shuffle(seed=...) *)
| ETrain                      (* trainer.train() *)
| ESaveModel.                 (* trainer.save_model() *)

(** A computation writes events and then returns or raises. *)
Definition M (A : Type) : Type := list event * (exn + A).

Definition ret {A} (a : A) : M A := ([], inr a).
Definition raise {A} (e : exn) : M A := ([], inl e).
Definition emit (ev : event) : M unit := ([ev], inr tt).
Definition bind {A B} (k : A → M B) (m : M A) : M B :=
  match m with
  | (out, inl e) => (out, inl e)
  | (out, inr a) => (out ++ (k a).1, (k a).2)
  end.
Definition lift {A} (r : exn + A) : M A := ([], r).

#[export] Instance M_ret : MRet M := @ret.
#[export] Instance M_bind : MBind M := @bind.

Definition stderr_write (s : string) : M unit := emit (EStderr s).

(** [d[k]] on a dict with string keys. *)
Definition getitem {V} (d : gmap string V) (k : string) : M V :=
  match d !! k with
  | Some v => ret v
  | None => raise (KeyError k)
  end.

(** ** Collaborators *)

(** The tokenizer's output: a dict of columns plus, per example, the word
    index each produced token came from ([None] for special tokens), which
    is what [word_ids(batch_index=i)] returns. *)
Record BatchEncoding := {
  data : gmap string (list cell);
  encodings : list (list (option nat));
}.

Definition setitem (b : BatchEncoding) (k : string) (col : list cell) : BatchEncoding :=
  {| data := <[k := col]> (data b); encodings := encodings b |}.

Definition word_ids (b : BatchEncoding) (batch_index : nat) : M (list (option nat)) :=
  match encodings b !! batch_index with
  | Some ws => ret ws
  | None => raise IndexError
  end.

(** [self.Model]: [tokenizer text pairs is_split_into_words] (always called
    with [truncation=True]), the label-name-to-id dict and the device. *)
Record model := {
  tokenizer : list cell → option (list cell) → bool → exn + BatchEncoding;
  label2id : gmap string Z;
  device : string;
}.

(** The label that marks a position as excluded from loss and metrics. *)
Definition ignore_index : Z := -100.

Definition newline : string := String (Ascii.ascii_of_nat 10) EmptyString.
Definition labels_warning : string :=
  "The labels must be ints. You can add mappings via id2label in the config" +:+ newline.

(** The label update both preprocessors perform on a value that is not an
    [int] (text trainer lines 56-60, token trainer lines 76-81): warn on
    stderr when the name is unknown, then index the dict regardless. *)
Definition update_label (l2i : gmap string Z) (word_label : label_value) : M Z :=
  match word_label with
  | LInt z => ret z
  | LStr s =>
      (if decide (l2i !! s = None) then stderr_write labels_warning else ret ());;
      getitem l2i s
  end.

(** [numpy.argmax(row, axis=-1)] on one row of logits. *)
Class Numpy (score : Type) := {
  argmax : list score → Z;
}.

(** The four metrics loaded with [evaluate.load]; each [compute] returns a
    one-entry dict. The extra arguments are [average] and [zero_division]. *)
Class Evaluate (num : Type) := {
  accuracy : list Z → list Z → gmap string num;
  precision : list Z → list Z → string → Z → gmap string num;
  recall : list Z → list Z → string → Z → gmap string num;
  f1 : list Z → list Z → string → gmap string num;
}.

(** A [DatasetDict] [DD] with splits [DS]. [dd_shuffle seed g d] is
    [d.shuffle(seed=seed)], where [g] is the state of the process-wide
    random generator that the library falls back on without a seed. *)
Class DatasetAPI (DD DS : Type) := {
  dd_split : DD → string → option DS;
  features : DS → gset string;
  dd_map : (batch → M BatchEncoding) → DD → M DD;
  dd_shuffle : option Z → nat → DD → DD;
}.

Inductive collator :=
| DataCollatorWithPadding
| DataCollatorForTokenClassification.

Inductive metrics_fn :=
| TextMetrics
| TokenMetrics.

(** The attributes of [self] that the two trainers read or assign. They are
    set up by the base class [Trainer], whose file is not among the sources;
    [float] is the type of the real-valued settings, which are only passed
    on. *)
Record trainer {DD float : Type} := {
  Model : model;
  textLabel : string;
  pairLabel : string;
  tokensLabel : string;
  tagsLabel : string;
  verbose : bool;
  dataset : option DD;
  data_collator : option collator;
  modelfpath : string;
  learning_rate : float;
  batchSize : Z;
  epochs : Z;
  weight_decay : float;
  eval_strategy : string;
  eval_steps : Z;
  save_strategy : string;
  save_steps : Z;
  load_best_model_at_end : bool;
}.
Arguments trainer : clear implicits.

(** [self.dataset = d; self.data_collator = c] *)
Definition with_dataset {DD float} (self : trainer DD float)
    (d : option DD) (c : option collator) : trainer DD float :=
  {| Model := Model self; textLabel := textLabel self;
     pairLabel := pairLabel self; tokensLabel := tokensLabel self;
     tagsLabel := tagsLabel self; verbose := verbose self;
     dataset := d; data_collator := c;
     modelfpath := modelfpath self; learning_rate := learning_rate self;
     batchSize := batchSize self; epochs := epochs self;
     weight_decay := weight_decay self; eval_strategy := eval_strategy self;
     eval_steps := eval_steps self; save_strategy := save_strategy self;
     save_steps := save_steps self;
     load_best_model_at_end := load_best_model_at_end self |}.

(** [Trainer.set_dataset], inherited from the base class. *)
Class TrainerBase (DD float : Type) := {
  set_dataset : trainer DD float → M (trainer DD float);
}.

Record TrainingArguments {float : Type} := {
  output_dir : string;
  ta_learning_rate : float;
  per_device_train_batch_size : Z;
  per_device_eval_batch_size : Z;
  num_train_epochs : Z;
  ta_weight_decay : float;
  ta_eval_strategy : string;
  ta_eval_steps : Z;
  ta_save_strategy : string;
  ta_save_steps : Z;
  ta_load_best_model_at_end : bool;
  use_cpu : bool;
}.
Arguments TrainingArguments : clear implicits.

(** What [train] hands to [transformers.Trainer]. *)
Record hf_trainer {DS float : Type} := {
  args : TrainingArguments float;
  train_dataset : DS;
  eval_dataset : DS;
  hf_data_collator : option collator;
  compute_metrics_fn : metrics_fn;
}.
Arguments hf_trainer : clear implicits.

(** The calls into [transformers]. Each of them returns or raises:
    [transformers.TrainingArguments(...)] and [transformers.Trainer(...)]
    check what they are given, [trainer.train()] and [trainer.save_model()]
    can fail while they run. An object that was constructed holds the
    arguments it was given. *)
Class Transformers (DS float : Type) := {
  new_TrainingArguments : TrainingArguments float → exn + unit;
  new_Trainer : hf_trainer DS float → exn + unit;
  trainer_train : hf_trainer DS float → exn + unit;
  trainer_save_model : hf_trainer DS float → exn + unit;
}.

(** The keyword arguments that [train] passes to
    [transformers.TrainingArguments]. *)
Definition training_arguments {DD float} (self : trainer DD float) : TrainingArguments float :=
  {| output_dir := modelfpath self;
     ta_learning_rate := learning_rate self;
     per_device_train_batch_size := batchSize self;
     per_device_eval_batch_size := batchSize self;
     num_train_epochs := epochs self;
     ta_weight_decay := weight_decay self;
     ta_eval_strategy := eval_strategy self;
     ta_eval_steps := eval_steps self;
     ta_save_strategy := save_strategy self;
     ta_save_steps := save_steps self;
     ta_load_best_model_at_end := load_best_model_at_end self;
     use_cpu := bool_decide (device (Model self) = "cpu") |}.

(** [self.dataset[split]]: a [TypeError] when [self.dataset] is [None], a
    [KeyError] when the split is absent. *)
Definition dataset_split `{DatasetAPI DD DS} {float} (self : trainer DD float)
    (split : string) : M DS :=
  match dataset self with
  | None => raise TypeError
  | Some d =>
      match dd_split d split with
      | Some s => ret s
      | None => raise (KeyError split)
      end
  end.

(** ** HFTokenClassificationTrainer.py *)

Module HFTokenClassificationTrainer.

(** The two nested [zip] loops of [compute_metrics], lines 23-29: the body
    of the inner loop, the inner loop, and the outer loop. *)
Definition keep (acc : list Z * list Z) (pl : Z * Z) : list Z * list Z :=
  let '(true_predictions, true_labels) := acc in
  let '(p, l) := pl in
  if decide (l ≠ ignore_index)
  then (true_predictions ++ [p], true_labels ++ [l])
  else (true_predictions, true_labels).

Definition keep_row (acc : list Z * list Z) (row : list Z * list Z) : list Z * list Z :=
  let '(prediction, label) := row in
  foldl keep acc (zip prediction label).

Definition true_pairs (predictions labels : list (list Z)) : list Z * list Z :=
  foldl keep_row ([], []) (zip predictions labels).

(** Lines 20-44. *)
Definition compute_metrics `{Numpy score} `{Evaluate num}
    (eval_pred : list (list (list score)) * list (list Z)) : gmap string num :=
  let predictions : list (list Z) := (λ row : list (list score), argmax <$> row) <$> eval_pred.1 in
  let '(predictions, labels) := true_pairs predictions eval_pred.2 in
  let acc := accuracy predictions labels in
  let p := precision predictions labels "weighted" 0 in
  let r := recall predictions labels "weighted" 0 in
  let f := f1 predictions labels "weighted" in
  (* {**acc, **p, **r, **f}: later entries win *)
  f ∪ (r ∪ (p ∪ acc)).

(** [label[word_idx]], line 74. *)
Definition subscript (label : cell) (word_idx : nat) : M label_value :=
  match label with
  | Seq xs =>
      match xs !! word_idx with
      | Some x => ret x
      | None => raise IndexError
      end
  | Scalar (LStr s) =>
      match String.get word_idx s with
      | Some c => ret (LStr (String c EmptyString))
      | None => raise IndexError
      end
  | Scalar (LInt _) => raise TypeError
  end.

(** The loop over [word_ids], lines 70-85, from the state
    [(previous_word_idx, label_ids)]. *)
Fixpoint align (l2i : gmap string Z) (label : cell)
    (word_ids : list (option nat))
    (previous_word_idx : option nat) (label_ids : list Z) : M (list Z) :=
  match word_ids with
  | [] => ret label_ids
  | word_idx :: rest =>
      label_ids ←
        match word_idx with
        | None => ret (label_ids ++ [ignore_index])
        | Some w =>
            if decide (word_idx ≠ previous_word_idx) then
              word_label ← subscript label w;
              word_label ← update_label l2i word_label;
              ret (label_ids ++ [word_label])
            else ret (label_ids ++ [ignore_index])
        end;
      align l2i label rest word_idx label_ids
  end.

(** The loop over [enumerate(examples[self.tagsLabel])], lines 66-86. *)
Fixpoint align_examples (l2i : gmap string Z) (tokenized_inputs : BatchEncoding)
    (i : nat) (tags : list cell) (labels : list (list Z)) : M (list (list Z)) :=
  match tags with
  | [] => ret labels
  | label :: rest =>
      ws ← word_ids tokenized_inputs i;
      label_ids ← align l2i label ws None [];
      align_examples l2i tokenized_inputs (S i) rest (labels ++ [label_ids])
  end.

Definition labels_column (labels : list (list Z)) : list cell :=
  (λ label_ids, Seq (LInt <$> label_ids)) <$> labels.

(** Lines 52-88. *)
Definition preprocess_function {DD float} (self : trainer DD float)
    (examples : batch) : M BatchEncoding :=
  let pairs := examples !! pairLabel self in
  tokens ← getitem examples (tokensLabel self);
  tokenized_inputs ← lift (tokenizer (Model self) tokens pairs true);
  tags ← getitem examples (tagsLabel self);
  labels ← align_examples (label2id (Model self)) tokenized_inputs 0%nat tags [];
  ret (setitem tokenized_inputs "labels" (labels_column labels)).

(** Lines 90-96. On [self.dataset = None] the call of [.map] fails; [train]
    never gets there. *)
Definition preprocess_dataset `{DatasetAPI DD DS} {float} (self : trainer DD float)
    : M (trainer DD float) :=
  (if verbose self then stderr_write ("Tokenizing the dataset..." +:+ newline)
   else ret ());;
  match dataset self with
  | None => raise TypeError
  | Some d =>
      emit EMap;;
      d ← dd_map (preprocess_function self) d;
      ret (with_dataset self (Some d) (Some DataCollatorForTokenClassification))
  end.

(** Lines 98-142; [g] is the state of the random generator when [train]
    is called. Returns [self] as the call leaves it and the trainer it
    built. *)
Definition train `{DatasetAPI DD DS} `{TrainerBase DD float} `{Transformers DS float}
    (g : nat) (self : trainer DD float) : M (trainer DD float * hf_trainer DS float) :=
  self ← (if dataset self is None
          then emit ESetDataset;; set_dataset self
          else ret self);
  tr ← dataset_split self "train";
  self ← (if decide ("input_ids" ∉ features tr)
          then preprocess_dataset self
          else ret self);
  d ← (if dataset self is Some d then ret d else raise TypeError);
  emit (EShuffle (Some 42));;
  let self := with_dataset self (Some (dd_shuffle (Some 42) g d)) (data_collator self) in
  let training_args := training_arguments self in
  lift (new_TrainingArguments training_args);;
  train_ds ← dataset_split self "train";
  eval_ds ← dataset_split self "valid";
  let trainer := {| args := training_args;
                    train_dataset := train_ds;
                    eval_dataset := eval_ds;
                    hf_data_collator := data_collator self;
                    compute_metrics_fn := TokenMetrics |} in
  lift (new_Trainer trainer);;
  emit ETrain;;
  lift (trainer_train trainer);;
  (if verbose self
   then stderr_write ("Saving final model to " +:+ modelfpath self +:+ "..." +:+ newline)
   else ret ());;
  emit ESaveModel;;
  lift (trainer_save_model trainer);;
  ret (self, trainer).

End HFTokenClassificationTrainer.

(** ** HFTextClassificationTrainer.py *)

Module HFTextClassificationTrainer.

(** Lines 20-36. *)
Definition compute_metrics `{Numpy score} `{Evaluate num}
    (eval_pred : list (list score) * list Z) : gmap string num :=
  let predictions : list Z := argmax <$> eval_pred.1 in
  let labels := eval_pred.2 in
  let acc := accuracy predictions labels in
  let p := precision predictions labels "weighted" 0 in
  let r := recall predictions labels "weighted" 0 in
  let f := f1 predictions labels "weighted" in
  f ∪ (r ∪ (p ∪ acc)).

(** The loop over [examples['label']], lines 55-62. A cell that holds a
    list is not an [int] and cannot be a dict key. *)
Fixpoint update_labels (l2i : gmap string Z) (column : list cell)
    (labels : list Z) : M (list Z) :=
  match column with
  | [] => ret labels
  | label :: rest =>
      label ← match label with
              | Scalar x => update_label l2i x
              | Seq _ => raise TypeError
              end;
      update_labels l2i rest (labels ++ [label])
  end.

Definition label_column (labels : list Z) : list cell :=
  (λ z, Scalar (LInt z)) <$> labels.

(** Lines 44-65. *)
Definition preprocess_function {DD float} (self : trainer DD float)
    (examples : batch) : M BatchEncoding :=
  let pairs := examples !! pairLabel self in
  text ← getitem examples (textLabel self);
  tokenized_inputs ← lift (tokenizer (Model self) text pairs false);
  column ← getitem examples "label";
  labels ← update_labels (label2id (Model self)) column [];
  ret (setitem tokenized_inputs "label" (label_column labels)).

(** Lines 67-76. *)
Definition preprocess_dataset `{DatasetAPI DD DS} `{TrainerBase DD float}
    (self : trainer DD float) : M (trainer DD float) :=
  self ← (if dataset self is None
          then emit ESetDataset;; set_dataset self
          else ret self);
  (if verbose self then stderr_write ("Tokenizing the dataset..." +:+ newline)
   else ret ());;
  match dataset self with
  | None => raise TypeError
  | Some d =>
      emit EMap;;
      d ← dd_map (preprocess_function self) d;
      ret (with_dataset self (Some d) (Some DataCollatorWithPadding))
  end.

(** Lines 77-121. *)
Definition train `{DatasetAPI DD DS} `{TrainerBase DD float} `{Transformers DS float}
    (g : nat) (self : trainer DD float) : M (trainer DD float * hf_trainer DS float) :=
  self ← (if dataset self is None
          then emit ESetDataset;; set_dataset self
          else ret self);
  tr ← dataset_split self "train";
  self ← (if decide ("input_ids" ∉ features tr)
          then preprocess_dataset self
          else ret self);
  d ← (if dataset self is Some d then ret d else raise TypeError);
  emit (EShuffle (Some 42));;
  let self := with_dataset self (Some (dd_shuffle (Some 42) g d)) (data_collator self) in
  let training_args := training_arguments self in
  lift (new_TrainingArguments training_args);;
  train_ds ← dataset_split self "train";
  eval_ds ← dataset_split self "valid";
  let trainer := {| args := training_args;
                    train_dataset := train_ds;
                    eval_dataset := eval_ds;
                    hf_data_collator := data_collator self;
                    compute_metrics_fn := TextMetrics |} in
  lift (new_Trainer trainer);;
  emit ETrain;;
  lift (trainer_train trainer);;
  (if verbose self
   then stderr_write ("Saving final model to " +:+ modelfpath self +:+ "..." +:+ newline)
   else ret ());;
  emit ESaveModel;;
  lift (trainer_save_model trainer);;
  ret (self, trainer).

End HFTextClassificationTrainer.

(** ** Vocabulary of the properties *)

(** The integer id a reference label stands for: itself when it is an
    [int], its entry in the name-to-id mapping otherwise. *)
Definition resolved (l2i : gmap string Z) (x : label_value) : option Z :=
  match x with
  | LInt z => Some z
  | LStr s => l2i !! s
  end.

(** The reference label of word [w] in one example's tag cell. *)
Definition word_label_of (label : cell) (w : nat) : option label_value :=
  match label with
  | Seq xs => xs !! w
  | Scalar (LStr s) => (λ c, LStr (String c EmptyString)) <$> String.get w s
  | Scalar (LInt _) => None
  end.

(** The source word index of the token before position [k], starting from
    [prev] at the first position. *)
Definition previous_from (prev : option nat) (ws : list (option nat)) (k : nat) : option nat :=
  match k with
  | O => prev
  | S j => mjoin (ws !! j)
  end.

(** The label found at position [k] of example [i] in column [col]. *)
Definition assigned (out : BatchEncoding) (col : string) (i k : nat) : option label_value :=
  match data out !! col ≫= (.!! i) with
  | Some (Seq xs) => xs !! k
  | _ => None
  end.

(** What the alignment rules prescribe for one token, given the index
    tracked before it. *)
Definition aligned_with (l2i : gmap string Z) (label : cell)
    (prev word_idx : option nat) (z : Z) : Prop :=
  match word_idx with
  | None => z = ignore_index
  | Some w =>
      if decide (Some w = prev) then z = ignore_index
      else ∃ word_label, word_label_of label w = Some word_label
                         ∧ resolved l2i word_label = Some z
  end.

(** One example's label row agrees with the alignment rules: one label per
    token, each as prescribed. *)
Definition row_aligned (l2i : gmap string Z) (label : cell)
    (ws : list (option nat)) (ids : list Z) : Prop :=
  length ids = length ws ∧
  ∀ k word_idx, ws !! k = Some word_idx →
    ∃ z, ids !! k = Some z
         ∧ aligned_with l2i label (previous_from None ws k) word_idx z.

(** A batch in which indexing cannot fail: every example has its row of
    word indices, its tags are a sequence, and every word index is within
    the tags. *)
Definition indexable (enc : BatchEncoding) (tags : list cell) (i : nat) : Prop :=
  ∀ j label, tags !! j = Some label →
    ∃ ws xs, encodings enc !! (i + j)%nat = Some ws ∧ label = Seq xs
             ∧ ∀ w, Some w ∈ ws → (w < length xs)%nat.

(** The positions the token metrics are computed over, in the words of
    the specification: the batch flattened row by row into (prediction,
    reference) pairs, without the pairs whose reference is the ignore
    label. *)
Definition kept_positions (predictions labels : list (list Z)) : list (Z * Z) :=
  filter (λ pl, pl.2 ≠ ignore_index)
    (mjoin ((λ row : list Z * list Z, zip row.1 row.2) <$> zip predictions labels)).

(** Two rows of predictions that can differ only where the reference is the
    ignore label, and two batches of such rows. *)
Definition rows_agree (prediction prediction' label : list Z) : Prop :=
  length prediction = length prediction' ∧
  ∀ j p p' l, prediction !! j = Some p → prediction' !! j = Some p' →
    label !! j = Some l → l ≠ ignore_index → p = p'.

Definition batches_agree (predictions predictions' labels : list (list Z)) : Prop :=
  length predictions = length predictions' ∧
  ∀ i row row' label, predictions !! i = Some row → predictions' !! i = Some row' →
    labels !! i = Some label → rows_agree row row' label.

(** A run of [train] that did not preprocess: it neither loaded a dataset
    nor mapped the preprocessor over one, and did not announce it. *)
Definition skips_preprocessing (events : list event) : Prop :=
  (EMap ∉ events) ∧ (ESetDataset ∉ events)
  ∧ (EStderr ("Tokenizing the dataset..." +:+ newline) ∉ events).

(** What the dataset library promises about [shuffle]: it permutes the rows
    of every split and leaves the features alone, and with a seed the
    permutation does not depend on the process-wide generator. *)
Definition shuffle_keeps_features `{DatasetAPI DD DS} : Prop :=
  ∀ seed g (d : DD) split,
    features <$> dd_split (dd_shuffle seed g d) split = features <$> dd_split d split.

Definition seeded_shuffle_ignores_generator `{DatasetAPI DD DS} : Prop :=
  ∀ seed g g' (d : DD), dd_shuffle (Some seed) g d = dd_shuffle (Some seed) g' d.

(** What [train] comes to once the dataset [d] is known to be tokenized:
    shuffle with seed 42, set up the training arguments, look up the two
    splits, set up the trainer, train, save. *)
Definition run_on_tokenized `{DatasetAPI DD DS} `{Transformers DS float} (fn : metrics_fn)
    (g : nat) (self : trainer DD float) (d : DD)
    : M (trainer DD float * hf_trainer DS float) :=
  emit (EShuffle (Some 42));;
  let self := with_dataset self (Some (dd_shuffle (Some 42) g d)) (data_collator self) in
  let training_args := training_arguments self in
  lift (new_TrainingArguments training_args);;
  train_ds ← dataset_split self "train";
  eval_ds ← dataset_split self "valid";
  let trainer := {| args := training_args;
                    train_dataset := train_ds;
                    eval_dataset := eval_ds;
                    hf_data_collator := data_collator self;
                    compute_metrics_fn := fn |} in
  lift (new_Trainer trainer);;
  emit ETrain;;
  lift (trainer_train trainer);;
  (if verbose self
   then stderr_write ("Saving final model to " +:+ modelfpath self +:+ "..." +:+ newline)
   else ret ());;
  emit ESaveModel;;
  lift (trainer_save_model trainer);;
  ret (self, trainer).

(** A computation that kept stderr silent, or wrote the warning about labels
    once and ended with the [KeyError] of a name the mapping lacks. *)
Definition quiet_or_unknown {A} (l2i : gmap string Z) (m : M A) : Prop :=
  m.1 = []
  ∨ (m.1 = [EStderr labels_warning]
     ∧ ∃ name, l2i !! name = None ∧ m.2 = inl (KeyError name)).

(** The tokens of word [w] stand next to each other in [ws]. *)
Definition contiguous (ws : list (option nat)) (w : nat) : Prop :=
  ∀ i j k, (i < j < k)%nat →
    ws !! i = Some (Some w) → ws !! k = Some (Some w) → ws !! j = Some (Some w).

(** Two tag columns that agree on every word that has a token. *)
Definition tags_agree (enc : BatchEncoding) (tags tags' : list cell) : Prop :=
  length tags = length tags' ∧
  ∀ i label label', tags !! i = Some label → tags' !! i = Some label' →
    ∃ xs xs', label = Seq xs ∧ label' = Seq xs'
      ∧ ∀ ws w, encodings enc !! i = Some ws → Some w ∈ ws → xs !! w = xs' !! w.

(** Every tag row has its row of word indices and is a sequence of labels
    that are [int]s or known names. *)
Definition tags_resolvable (l2i : gmap string Z) (enc : BatchEncoding)
    (tags : list cell) (i : nat) : Prop :=
  ∀ j label, tags !! j = Some label →
    ∃ ws xs, encodings enc !! (i + j)%nat = Some ws ∧ label = Seq xs
             ∧ ∀ x, x ∈ xs → is_Some (resolved l2i x).

(** The references the token metrics keep, in the words of the source's
    test [l != -100]. *)
Definition kept_references (labels : list (list Z)) : list Z :=
  filter (λ l, l ≠ ignore_index) (mjoin labels).

(** The part of [train] that follows preprocessing (token trainer lines
    108-142, text trainer lines 87-121), on its own; [fn] is the metric
    function of the trainer at hand. *)
Definition shuffle_and_train `{DatasetAPI DD DS} `{Transformers DS float} (fn : metrics_fn)
    (g : nat) (self : trainer DD float) : M (trainer DD float * hf_trainer DS float) :=
  d ← (if dataset self is Some d then ret d else raise TypeError);
  emit (EShuffle (Some 42));;
  let self := with_dataset self (Some (dd_shuffle (Some 42) g d)) (data_collator self) in
  let training_args := training_arguments self in
  lift (new_TrainingArguments training_args);;
  train_ds ← dataset_split self "train";
  eval_ds ← dataset_split self "valid";
  let trainer := {| args := training_args;
                    train_dataset := train_ds;
                    eval_dataset := eval_ds;
                    hf_data_collator := data_collator self;
                    compute_metrics_fn := fn |} in
  lift (new_Trainer trainer);;
  emit ETrain;;
  lift (trainer_train trainer);;
  (if verbose self
   then stderr_write ("Saving final model to " +:+ modelfpath self +:+ "..." +:+ newline)
   else ret ());;
  emit ESaveModel;;
  lift (trainer_save_model trainer);;
  ret (self, trainer).

(** The events of the notice that [preprocess_dataset] writes when
    [verbose] is set. *)
Definition tokenizing_notice {DD float} (self : trainer DD float) : list event :=
  if verbose self then [EStderr ("Tokenizing the dataset..." +:+ newline)] else [].

(** The events [train] ends with when it returns. *)
Definition closing_events {DD float} (self : trainer DD float) : list event :=
  [EShuffle (Some 42); ETrain]
  ++ (if verbose self
      then [EStderr ("Saving final model to " +:+ modelfpath self +:+ "..." +:+ newline)]
      else [])
  ++ [ESaveModel].

(** The trainer that [train] sets up from [self] and two splits. *)
Definition trainer_for {DD DS float} (fn : metrics_fn) (self : trainer DD float)
    (tr va : DS) : hf_trainer DS float :=
  {| args := training_arguments self;
     train_dataset := tr;
     eval_dataset := va;
     hf_data_collator := data_collator self;
     compute_metrics_fn := fn |}.

(** The training library goes through with the trainer [hf]: the two
    constructors accept what they are given, and training and saving
    return. *)
Definition library_accepts `{Transformers DS float} (hf : hf_trainer DS float) : Prop :=
  new_TrainingArguments (args hf) = inr ()
  ∧ new_Trainer hf = inr ()
  ∧ trainer_train hf = inr ()
  ∧ trainer_save_model hf = inr ().

(** The trainer [hf] is set up from the attributes of [self]. *)
Definition configured_from {DD DS float} (self : trainer DD float)
    (hf : hf_trainer DS float) : Prop :=
  args hf = training_arguments self
  ∧ hf_data_collator hf = data_collator self
  ∧ (use_cpu (args hf) = true ↔ device (Model self) = "cpu")
  ∧ output_dir (args hf) = modelfpath self
  ∧ per_device_train_batch_size (args hf) = batchSize self
  ∧ per_device_eval_batch_size (args hf) = batchSize self.

(** ** A small tokenizer and trainer to run the definitions on *)

Module Fixture.

(** A word of up to four characters is one piece, and every five further
    characters add a piece. *)
Definition pieces (w : label_value) : nat :=
  match w with
  | LStr s => S (String.length s / 5)
  | LInt _ => 1
  end.

Definition sequence_word_ids (c : cell) : list (option nat) :=
  match c with
  | Seq ws => mjoin (imap (λ j w, replicate (pieces w) (Some j)) ws)
  | Scalar _ => [Some 0%nat]
  end.

(** The sequence, or the sequence and its pair with a separator between
    them, cut to [max_length] tokens counting the two special tokens that
    surround it. *)
Definition row_word_ids (max_length : nat) (c : cell) (pair : option cell)
    : list (option nat) :=
  [None]
  ++ take (max_length - 2)
       (sequence_word_ids c
        ++ match pair with
           | Some p => [None] ++ sequence_word_ids p
           | None => []
           end)
  ++ [None].

Definition split_tokenizer (max_length : nat) (text : list cell)
    (pairs : option (list cell)) (is_split_into_words : bool)
    : exn + BatchEncoding :=
  let rows := imap (λ i c, row_word_ids max_length c (pairs ≫= (.!! i))) text in
  inr {| data := {[ "input_ids" := (λ r, Seq ((λ _, LInt 0) <$> r)) <$> rows ]};
         encodings := rows |}.

Definition ner_model (max_length : nat) : model :=
  {| tokenizer := split_tokenizer max_length;
     label2id := {[ "O" := 0; "B-ORG" := 1; "I-ORG" := 2 ]};
     device := "cpu" |}.

Definition self (max_length : nat) (d : option unit) : trainer unit unit :=
  {| Model := ner_model max_length;
     textLabel := "text"; pairLabel := "pair";
     tokensLabel := "tokens"; tagsLabel := "tags";
     verbose := true; dataset := d; data_collator := None;
     modelfpath := "out"; learning_rate := (); batchSize := 16; epochs := 3;
     weight_decay := (); eval_strategy := "epoch"; eval_steps := 500;
     save_strategy := "epoch"; save_steps := 500;
     load_best_model_at_end := true |}.

(** "HuggingFace Inc": the first word is split into three pieces. *)
Definition ner_batch : batch :=
  {[ "tokens" := [Seq [LStr "HuggingFace"; LStr "Inc"]];
     "tags" := [Seq [LStr "B-ORG"; LInt 2]] ]}.

(** The same sentence given twice, as text and as its pair. *)
Definition pair_batch : batch :=
  <[ "pair" := [Seq [LStr "HuggingFace"; LStr "Inc"]] ]> ner_batch.

(** A tag name the model does not know, on the second word. *)
Definition unknown_tag_batch : batch :=
  {[ "tokens" := [Seq [LStr "HuggingFace"; LStr "Inc"]];
     "tags" := [Seq [LStr "B-ORG"; LStr "B-LOC"]] ]}.

(** What the tokenizer returns on [ner_batch] and on [pair_batch], and the
    batches the token preprocessor makes of them. *)
Definition ner_encoding : BatchEncoding :=
  {| data := {[ "input_ids" := [Seq (replicate 6 (LInt 0))] ]};
     encodings := [[None; Some 0; Some 0; Some 0; Some 1; None]]%nat |}.

Definition ner_out : BatchEncoding :=
  setitem ner_encoding "labels" [Seq (LInt <$> [-100; 1; -100; -100; 2; -100])].

Definition pair_encoding : BatchEncoding :=
  {| data := {[ "input_ids" := [Seq (replicate 11 (LInt 0))] ]};
     encodings := [[None; Some 0; Some 0; Some 0; Some 1; None;
                    Some 0; Some 0; Some 0; Some 1; None]]%nat |}.

Definition pair_out : BatchEncoding :=
  setitem pair_encoding "labels"
    [Seq (LInt <$> [-100; 1; -100; -100; 2; -100; 1; -100; -100; 2; -100])].

(** [unknown_tag_batch] under a tokenizer limited to four tokens: the
    second word is cut off. *)
Definition truncated_out : BatchEncoding :=
  setitem {| data := {[ "input_ids" := [Seq (replicate 4 (LInt 0))] ]};
             encodings := [[None; Some 0; Some 0; None]]%nat |}
    "labels" [Seq (LInt <$> [-100; 1; -100; -100])].

Definition text_batch : batch :=
  {[ "text" := [Scalar (LStr "good"); Scalar (LStr "bad"); Scalar (LStr "fine")];
     "label" := [Scalar (LInt 7); Scalar (LStr "O"); Scalar (LStr "B-ORG")] ]}.

Definition text_out : BatchEncoding :=
  setitem {| data := {[ "input_ids" := replicate 3 (Seq (replicate 3 (LInt 0))) ]};
             encodings := replicate 3 [None; Some 0%nat; None] |}
    "label" [Scalar (LInt 7); Scalar (LInt 0); Scalar (LInt 1)].

Definition unknown_label_batch : batch :=
  {[ "text" := [Scalar (LStr "good"); Scalar (LStr "bad")];
     "label" := [Scalar (LInt 1); Scalar (LStr "neutral")] ]}.

(** The class with the largest score, the first one on ties. *)
Fixpoint first_max (best : Z) (best_at here : Z) (row : list Z) : Z :=
  match row with
  | [] => best_at
  | x :: rest =>
      if decide (best < x) then first_max x here (here + 1) rest
      else first_max best best_at (here + 1) rest
  end.

#[local] Instance numpy : Numpy Z :=
  {| argmax row := match row with
                   | [] => 0
                   | x :: rest => first_max x 0 1 rest
                   end |}.

(** Stand-ins for the four metrics: each reports how many predictions equal
    their reference and how many positions it was given. *)
Definition hits (predictions references : list Z) : nat * nat :=
  (length (filter (λ pl : Z * Z, pl.1 = pl.2) (zip predictions references)),
   length references).

#[local] Instance counting : Evaluate (nat * nat) :=
  {| accuracy p r := {[ "accuracy" := hits p r ]};
     precision p r _ _ := {[ "precision" := hits p r ]};
     recall p r _ _ := {[ "recall" := hits p r ]};
     f1 p r _ := {[ "f1" := hits p r ]} |}.

(** A dataset split: row ids in their current order, and the features. *)
Record split := {
  rows : list nat;
  split_features : gset string;
}.

#[local] Instance datasets : DatasetAPI (gmap string split) split :=
  {| dd_split d name := d !! name;
     features := split_features;
     dd_map _ d :=
       ret ((λ s, {| rows := rows s;
                     split_features := split_features s
                                       ∪ {[ "input_ids"; "attention_mask" ]} |}) <$> d);
     dd_shuffle seed g d :=
       (λ s, {| rows := rotate (default g (Z.to_nat <$> seed)) (rows s);
                split_features := split_features s |}) <$> d |}.

Definition raw_dataset : gmap string split :=
  {[ "train" := {| rows := seq 0 50; split_features := {[ "tokens"; "tags" ]} |};
     "valid" := {| rows := seq 50 10; split_features := {[ "tokens"; "tags" ]} |} ]}.

Definition tokenized_dataset : gmap string split :=
  {[ "train" := {| rows := seq 0 50;
                   split_features := {[ "tokens"; "tags"; "input_ids"; "labels" ]} |};
     "valid" := {| rows := seq 50 10;
                   split_features := {[ "tokens"; "tags"; "input_ids"; "labels" ]} |} ]}.

#[local] Instance base : TrainerBase (gmap string split) unit :=
  {| set_dataset self := ret (with_dataset self (Some raw_dataset) (data_collator self)) |}.

Definition orchestrator (d : option (gmap string split))
    : trainer (gmap string split) unit :=
  {| Model := ner_model 16;
     textLabel := "text"; pairLabel := "pair";
     tokensLabel := "tokens"; tagsLabel := "tags";
     verbose := true; dataset := d; data_collator := None;
     modelfpath := "out"; learning_rate := (); batchSize := 16; epochs := 3;
     weight_decay := (); eval_strategy := "epoch"; eval_steps := 500;
     save_strategy := "epoch"; save_steps := 500;
     load_best_model_at_end := true |}.

(** A training library that checks one thing about the arguments: keeping
    the best model at the end needs evaluation and saving on the same
    schedule. *)
#[local] Instance transformers : Transformers split unit :=
  {| new_TrainingArguments a :=
       if ta_load_best_model_at_end a
          && negb (bool_decide (ta_eval_strategy a = ta_save_strategy a))
       then inl (External "load_best_model_at_end")
       else inr ();
     new_Trainer _ := inr ();
     trainer_train _ := inr ();
     trainer_save_model _ := inr () |}.

(** [orchestrator] with a configuration that this library rejects. *)
Definition mismatched_orchestrator (d : option (gmap string split))
    : trainer (gmap string split) unit :=
  {| Model := ner_model 16;
     textLabel := "text"; pairLabel := "pair";
     tokensLabel := "tokens"; tagsLabel := "tags";
     verbose := true; dataset := d; data_collator := None;
     modelfpath := "out"; learning_rate := (); batchSize := 16; epochs := 3;
     weight_decay := (); eval_strategy := "epoch"; eval_steps := 500;
     save_strategy := "steps"; save_steps := 500;
     load_best_model_at_end := true |}.

(** What the tokenizer returns on [text_batch]. *)
Definition text_encoding : BatchEncoding :=
  {| data := {[ "input_ids" := replicate 3 (Seq (replicate 3 (LInt 0))) ]};
     encodings := replicate 3 [None; Some 0%nat; None] |}.

(** A model whose tokenizer raises. *)
Definition failing_model : model :=
  {| tokenizer _ _ _ := inl (External "tokenizer");
     label2id := {[ "O" := 0 ]};
     device := "cuda:0" |}.

Definition failing_self : trainer unit unit :=
  {| Model := failing_model;
     textLabel := "text"; pairLabel := "pair";
     tokensLabel := "tokens"; tagsLabel := "tags";
     verbose := false; dataset := None; data_collator := None;
     modelfpath := "out"; learning_rate := (); batchSize := 8; epochs := 1;
     weight_decay := (); eval_strategy := "no"; eval_steps := 0;
     save_strategy := "no"; save_steps := 0;
     load_best_model_at_end := false |}.

(** Batches with a column missing. *)
Definition tags_only_batch : batch :=
  {[ "tags" := [Seq [LStr "B-ORG"; LInt 2]] ]}.

Definition tokens_only_batch : batch :=
  {[ "tokens" := [Seq [LStr "HuggingFace"; LStr "Inc"]] ]}.

Definition label_only_batch : batch :=
  {[ "label" := [Scalar (LInt 1)] ]}.

Definition text_only_batch : batch :=
  {[ "text" := [Scalar (LStr "good")] ]}.

(** One tag for two words. *)
Definition short_tags_batch : batch :=
  {[ "tokens" := [Seq [LStr "HuggingFace"; LStr "Inc"]];
     "tags" := [Seq [LStr "B-ORG"]] ]}.

(** Datasets in which a split is missing. *)
Definition valid_only_dataset : gmap string split :=
  {[ "valid" := {| rows := seq 50 10; split_features := {[ "tokens"; "tags" ]} |} ]}.

Definition train_only_dataset : gmap string split :=
  {[ "train" := {| rows := seq 0 50;
                   split_features := {[ "tokens"; "tags"; "input_ids"; "labels" ]} |} ]}.

(** A dataset library that does run the function it is given: a split is
    one batch, [map] calls the function on each split and adds the columns
    it returns, [shuffle] rotates every column. *)
Fixpoint map_splits (f : batch → M BatchEncoding) (splits : list (string * batch))
    : M (list (string * batch)) :=
  match splits with
  | [] => ret []
  | (name, b) :: rest =>
      enc ← f b;
      rest ← map_splits f rest;
      ret ((name, data enc ∪ b) :: rest)
  end.

#[local] Instance batches : DatasetAPI (gmap string batch) batch :=
  {| dd_split d name := d !! name;
     features (b : batch) := dom b;
     dd_map f d := l ← map_splits f (map_to_list d); ret (list_to_map l);
     dd_shuffle seed g d :=
       (λ b : batch, rotate (default g (Z.to_nat <$> seed)) <$> b) <$> d |}.

Definition ner_dataset : gmap string batch :=
  {[ "train" := ner_batch; "valid" := ner_batch ]}.

Definition unknown_tag_dataset : gmap string batch :=
  {[ "train" := unknown_tag_batch; "valid" := ner_batch ]}.

(** [ner_dataset] with the preprocessor mapped over it. *)
Definition mapped_ner_dataset : gmap string batch :=
  {[ "train" := data ner_out ∪ ner_batch; "valid" := data ner_out ∪ ner_batch ]}.

#[local] Instance batch_base : TrainerBase (gmap string batch) unit :=
  {| set_dataset self := ret (with_dataset self (Some ner_dataset) (data_collator self)) |}.

(** A training library that accepts what it is given. *)
#[local] Instance batch_transformers : Transformers batch unit :=
  {| new_TrainingArguments _ := inr ();
     new_Trainer _ := inr ();
     trainer_train _ := inr ();
     trainer_save_model _ := inr () |}.

Definition batch_orchestrator (d : option (gmap string batch))
    : trainer (gmap string batch) unit :=
  {| Model := ner_model 16;
     textLabel := "text"; pairLabel := "pair";
     tokensLabel := "tokens"; tagsLabel := "tags";
     verbose := true; dataset := d; data_collator := None;
     modelfpath := "out"; learning_rate := (); batchSize := 16; epochs := 3;
     weight_decay := (); eval_strategy := "epoch"; eval_steps := 500;
     save_strategy := "epoch"; save_steps := 500;
     load_best_model_at_end := true |}.

End Fixture.

(** * Properties *)

(** Invert an equation between a finished computation and its outcome. *)
Ltac inv_ret H := unfold ret, raise, lift, emit, stderr_write in H; simplify_eq.

Section monad_facts.
Context {A B : Type}.

Lemma bind_inr (m : M A) (k : A → M B) out b :
  m ≫= k = (out, inr b) →
  ∃ o1 a o2, m = (o1, inr a) ∧ k a = (o2, inr b) ∧ out = o1 ++ o2.
Proof.
  destruct m as [o1 [e|a]]; cbn; [discriminate|].
  intros Heq. exists o1, a, (k a).1.
  destruct (k a) as [o2 r]; cbn in *. by simplify_eq.
Qed.

Lemma bind_ret_l (a : A) (k : A → M B) : ret a ≫= k = k a.
Proof. unfold mbind, M_bind; cbn. by destruct (k a). Qed.
End monad_facts.

Lemma getitem_inr {V} (d : gmap string V) k out v :
  getitem d k = (out, inr v) → d !! k = Some v ∧ out = [].
Proof. unfold getitem, ret, raise. destruct (d !! k); intros; by simplify_eq. Qed.

Lemma update_label_inr l2i x out z :
  update_label l2i x = (out, inr z) → resolved l2i x = Some z ∧ out = [].
Proof.
  destruct x as [z'|s]; cbn.
  - by intros [= <- <-].
  - intros (o1 & [] & o2 & H1 & H2 & ->)%bind_inr.
    apply getitem_inr in H2 as [H2 ->].
    case_decide; [congruence|]. by injection H1 as <-.
Qed.

Lemma update_label_resolved l2i x z :
  resolved l2i x = Some z → update_label l2i x = ([], inr z).
Proof.
  destruct x as [z'|s]; cbn; [by intros [= <-]|].
  intros Hs. case_decide; [congruence|].
  rewrite bind_ret_l. unfold getitem. by rewrite Hs.
Qed.

Lemma update_label_unknown l2i s :
  l2i !! s = None →
  update_label l2i (LStr s) = ([EStderr labels_warning], inl (KeyError s)).
Proof.
  intros Hs. cbn. case_decide; [|congruence].
  unfold getitem. by rewrite Hs.
Qed.

(** Every way [update_label] can end. *)
Lemma update_label_cases l2i x :
  (∃ z, resolved l2i x = Some z ∧ update_label l2i x = ([], inr z))
  ∨ (∃ s, x = LStr s ∧ l2i !! s = None
          ∧ update_label l2i x = ([EStderr labels_warning], inl (KeyError s))).
Proof.
  destruct (resolved l2i x) as [z|] eqn:Hr.
  - left. exists z. split; [done|]. by apply update_label_resolved.
  - right. destruct x as [z|s]; [done|]. exists s. cbn in Hr.
    split_and!; [done..|]. by apply update_label_unknown.
Qed.

Module TokenFacts.
Import HFTokenClassificationTrainer.

Lemma subscript_inr label w out x :
  subscript label w = (out, inr x) → word_label_of label w = Some x ∧ out = [].
Proof.
  unfold subscript, word_label_of, ret, raise.
  destruct label as [[z|s]|xs]; [done| |].
  - destruct (String.get w s); cbn; intros; by simplify_eq.
  - destruct (xs !! w); intros; by simplify_eq.
Qed.

Lemma previous_from_cons prev x ws j :
  previous_from prev (x :: ws) (S j) = previous_from x ws j.
Proof. by destruct j. Qed.

(** A run of the inner loop that returns wrote nothing to stderr, kept
    what was already collected, and added one label per token, each as the
    alignment rules prescribe. *)
Lemma align_inr l2i label ws : ∀ prev acc out ids,
  align l2i label ws prev acc = (out, inr ids) →
  out = [] ∧ ∃ rest, ids = acc ++ rest ∧ length rest = length ws ∧
    ∀ k word_idx, ws !! k = Some word_idx →
      ∃ z, rest !! k = Some z
           ∧ aligned_with l2i label (previous_from prev ws k) word_idx z.
Proof.
  induction ws as [|word_idx ws IH]; intros prev acc out ids.
  - intros H. cbn in H. inv_ret H. split; [done|]. exists [].
    split_and!; [by rewrite app_nil_r|done|]. by intros k wi Hk.
  - cbn [align]. intros (o1 & ids1 & o2 & Hstep & Hrest & ->)%bind_inr.
    apply IH in Hrest as (-> & rest & -> & Hlen & Hk).
    assert (o1 = [] ∧ ∃ z, ids1 = acc ++ [z]
                           ∧ aligned_with l2i label prev word_idx z) as (-> & z & -> & Hz).
    { unfold aligned_with.
      destruct word_idx as [w|]; [|inv_ret Hstep; by eauto].
      destruct (decide (Some w = prev)) as [He|Hne].
      - rewrite decide_False in Hstep by (by intros ?).
        inv_ret Hstep. eauto.
      - rewrite decide_True in Hstep by done.
        apply bind_inr in Hstep as (o & wl & o' & Hsub & Hupd & ->).
        apply subscript_inr in Hsub as [Hwl ->].
        apply bind_inr in Hupd as (o & z & o'' & Hupd & Hret & ->).
        apply update_label_inr in Hupd as [Hz ->].
        inv_ret Hret. eauto 10. }
    split; [done|]. exists (z :: rest). split; [by rewrite <-app_assoc|].
    split; [cbn; lia|]. intros [|k] wi Hwi.
    + injection Hwi as <-. eauto.
    + rewrite previous_from_cons. by apply Hk.
Qed.
Lemma word_ids_inr enc i out ws :
  word_ids enc i = (out, inr ws) → encodings enc !! i = Some ws ∧ out = [].
Proof.
  unfold word_ids. destruct (encodings enc !! i); intros H; by inv_ret H.
Qed.

(** The same for the loop over the examples of the batch. *)
Lemma align_examples_inr l2i enc tags : ∀ i acc out labels,
  align_examples l2i enc i tags acc = (out, inr labels) →
  out = [] ∧ ∃ rest, labels = acc ++ rest ∧ length rest = length tags ∧
    ∀ j label, tags !! j = Some label →
      ∃ ws ids, encodings enc !! (i + j)%nat = Some ws ∧ rest !! j = Some ids
                ∧ row_aligned l2i label ws ids.
Proof.
  induction tags as [|label tags IH]; intros i acc out labels.
  - intros H. cbn in H. inv_ret H. split; [done|]. exists [].
    split_and!; [by rewrite app_nil_r|done|]. by intros j l Hj.
  - cbn [align_examples].
    intros (o1 & ws & o2 & Hws & Hrest & ->)%bind_inr.
    apply word_ids_inr in Hws as [Hws ->].
    apply bind_inr in Hrest as (o1 & ids & o3 & Hids & Hrest & ->).
    apply align_inr in Hids as (-> & ids' & Heq & Hlen & Hk).
    rewrite app_nil_l in Heq. subst ids'.
    apply IH in Hrest as (-> & rest & -> & Hlen' & Hj).
    split; [done|]. exists (ids :: rest).
    split_and!; [by rewrite <-app_assoc|cbn; lia|].
    intros [|j] l Hl.
    + injection Hl as <-. rewrite Nat.add_0_r. by exists ws, ids.
    + replace (i + S j)%nat with (S i + j)%nat by lia. by apply Hj.
Qed.

(** What a successful call of the token preprocessor looks like. *)
Lemma token_preprocess_inr {DD float} (self : trainer DD float) examples out enc' :
  preprocess_function self examples = (out, inr enc') →
  out = [] ∧ ∃ tokens tags enc labels,
    examples !! tokensLabel self = Some tokens
    ∧ tokenizer (Model self) tokens (examples !! pairLabel self) true = inr enc
    ∧ examples !! tagsLabel self = Some tags
    ∧ enc' = setitem enc "labels" (labels_column labels)
    ∧ length labels = length tags
    ∧ ∀ j label, tags !! j = Some label →
        ∃ ws ids, encodings enc' !! j = Some ws ∧ labels !! j = Some ids
                  ∧ row_aligned (label2id (Model self)) label ws ids.
Proof.
  unfold preprocess_function.
  intros (o1 & tokens & o2 & Htok & H & ->)%bind_inr.
  apply getitem_inr in Htok as [Htok ->].
  apply bind_inr in H as (o1 & enc & o3 & Henc & H & ->). inv_ret Henc.
  apply bind_inr in H as (o1 & tags & o4 & Htags & H & ->).
  apply getitem_inr in Htags as [Htags ->].
  apply bind_inr in H as (o1 & labels & o5 & Hlabels & H & ->). inv_ret H.
  apply align_examples_inr in Hlabels as (-> & rest & Heq & Hlen & Hj).
  rewrite app_nil_l in Heq. subst rest.
  split; [done|]. exists tokens, tags, enc, labels. split_and!; try done.
Qed.

Lemma assigned_labels enc labels j ids k :
  labels !! j = Some ids →
  assigned (setitem enc "labels" (labels_column labels)) "labels" j k
  = LInt <$> ids !! k.
Proof.
  intros Hj. unfold assigned, setitem, labels_column; cbn.
  rewrite lookup_insert_eq; cbn. rewrite list_lookup_fmap, Hj; cbn.
  by rewrite list_lookup_fmap.
Qed.

(** The label of one token of a successfully preprocessed batch. *)
Lemma preprocess_function_token {DD float} (self : trainer DD float)
    examples out enc' tags i label ws k word_idx :
  preprocess_function self examples = (out, inr enc') →
  examples !! tagsLabel self = Some tags →
  tags !! i = Some label →
  encodings enc' !! i = Some ws →
  ws !! k = Some word_idx →
  ∃ z, assigned enc' "labels" i k = Some (LInt z)
       ∧ aligned_with (label2id (Model self)) label
           (previous_from None ws k) word_idx z.
Proof.
  intros (_ & tokens & tags' & enc & labels & _ & _ & Htags' & -> & _ & Hrows)%token_preprocess_inr
         Htags Hi Hws Hk.
  assert (tags' = tags) as -> by congruence.
  destruct (Hrows i label Hi) as (ws' & ids & Hws' & Hids & _ & Hal).
  assert (ws' = ws) as -> by congruence.
  destruct (Hal k word_idx Hk) as (z & Hz & Hz').
  exists z. split; [|done]. by rewrite (assigned_labels _ _ _ ids), Hz.
Qed.

(** The label of a first piece. *)
Lemma first_piece_label {DD float} (self : trainer DD float)
    examples out enc' tags i label ws k w :
  preprocess_function self examples = (out, inr enc') →
  examples !! tagsLabel self = Some tags →
  tags !! i = Some label →
  encodings enc' !! i = Some ws →
  ws !! k = Some (Some w) →
  previous_from None ws k ≠ Some w →
  ∃ word_label z,
    word_label_of label w = Some word_label
    ∧ resolved (label2id (Model self)) word_label = Some z
    ∧ assigned enc' "labels" i k = Some (LInt z).
Proof.
  intros Hrun Htags Hi Hws Hk Hprev.
  destruct (preprocess_function_token self examples out enc' tags
              i label ws k (Some w) Hrun Htags Hi Hws Hk) as (z & Hz & Hal).
  unfold aligned_with in Hal. rewrite decide_False in Hal by congruence.
  destruct Hal as (word_label & Hwl & Hres). by exists word_label, z.
Qed.

End TokenFacts.

Example ner_batch_run :
  HFTokenClassificationTrainer.preprocess_function (Fixture.self 16 None) Fixture.ner_batch
  = ([], inr Fixture.ner_out).
Proof. vm_compute. reflexivity. Qed.

Example pair_batch_run :
  HFTokenClassificationTrainer.preprocess_function (Fixture.self 16 None) Fixture.pair_batch
  = ([], inr Fixture.pair_out).
Proof. vm_compute. reflexivity. Qed.

(** ** Token classification: which label each token gets *)

(** C1. In a batch the token preprocessor returns, a token whose source word
    index exists and differs from the index tracked for the token before it
    (the first piece of a word) carries the resolved id of that word's
    reference label: the label itself when it is an [int], its entry in
    [label2id] otherwise. *)
Theorem first_piece_gets_resolved_label {DD float} (self : trainer DD float)
    examples out enc' tags i label ws k w :
  HFTokenClassificationTrainer.preprocess_function self examples = (out, inr enc') →
  examples !! tagsLabel self = Some tags →
  tags !! i = Some label →
  encodings enc' !! i = Some ws →
  ws !! k = Some (Some w) →
  previous_from None ws k ≠ Some w →
  ∃ word_label z,
    word_label_of label w = Some word_label
    ∧ resolved (label2id (Model self)) word_label = Some z
    ∧ match word_label with
      | LInt n => z = n
      | LStr name => label2id (Model self) !! name = Some z
      end
    ∧ assigned enc' "labels" i k = Some (LInt z).
Proof.
  intros Hrun Htags Hi Hws Hk Hprev.
  destruct (TokenFacts.first_piece_label self examples out enc' tags
              i label ws k w Hrun Htags Hi Hws Hk Hprev)
    as (word_label & z & Hwl & Hres & Hz).
  exists word_label, z. split_and!; [done..| |done].
  destruct word_label; cbn in Hres; by simplify_eq.
Qed.

Lemma first_piece_gets_resolved_label_witness :
  ∃ word_label z,
    word_label_of (Seq [LStr "B-ORG"; LInt 2]) 0 = Some word_label
    ∧ resolved (label2id (Model (Fixture.self 16 None))) word_label = Some z
    ∧ match word_label with
      | LInt n => z = n
      | LStr name => label2id (Model (Fixture.self 16 None)) !! name = Some z
      end
    ∧ assigned Fixture.ner_out "labels" 0 1 = Some (LInt z).
Proof.
  apply (first_piece_gets_resolved_label (Fixture.self 16 None) Fixture.ner_batch
           [] Fixture.ner_out [Seq [LStr "B-ORG"; LInt 2]] 0
           (Seq [LStr "B-ORG"; LInt 2])
           [None; Some 0; Some 0; Some 0; Some 1; None]%nat 1 0).
  - vm_compute. reflexivity.
  - vm_compute. reflexivity.
  - reflexivity.
  - reflexivity.
  - reflexivity.
  - discriminate.
Defined.

(** C2. A token whose source word index equals that of the token just
    before it carries the ignore label -100; for two tokens of one word
    this is the continuation piece. *)
Theorem continuation_piece_is_ignored {DD float} (self : trainer DD float)
    examples out enc' tags i label ws k word_idx :
  HFTokenClassificationTrainer.preprocess_function self examples = (out, inr enc') →
  examples !! tagsLabel self = Some tags →
  tags !! i = Some label →
  encodings enc' !! i = Some ws →
  ws !! k = Some word_idx →
  ws !! S k = Some word_idx →
  assigned enc' "labels" i (S k) = Some (LInt (-100)).
Proof.
  intros Hrun Htags Hi Hws Hk HSk.
  destruct (TokenFacts.preprocess_function_token self examples out enc' tags
              i label ws (S k) word_idx Hrun Htags Hi Hws HSk) as (z & Hz & Hal).
  unfold aligned_with in Hal. cbn [previous_from] in Hal. rewrite Hk in Hal.
  cbn in Hal. destruct word_idx as [w|]; [|by rewrite Hz, Hal].
  rewrite decide_True in Hal by done. by rewrite Hz, Hal.
Qed.

Lemma continuation_piece_is_ignored_witness :
  assigned Fixture.ner_out "labels" 0 2 = Some (LInt (-100)).
Proof.
  apply (continuation_piece_is_ignored (Fixture.self 16 None) Fixture.ner_batch
           [] Fixture.ner_out [Seq [LStr "B-ORG"; LInt 2]] 0
           (Seq [LStr "B-ORG"; LInt 2])
           [None; Some 0; Some 0; Some 0; Some 1; None]%nat 1 (Some 0%nat)).
  - vm_compute. reflexivity.
  - vm_compute. reflexivity.
  - reflexivity.
  - reflexivity.
  - reflexivity.
  - reflexivity.
Defined.

(** C3. A token with no source word index (a special token) carries the
    ignore label -100. *)
Theorem special_token_is_ignored {DD float} (self : trainer DD float)
    examples out enc' tags i label ws k :
  HFTokenClassificationTrainer.preprocess_function self examples = (out, inr enc') →
  examples !! tagsLabel self = Some tags →
  tags !! i = Some label →
  encodings enc' !! i = Some ws →
  ws !! k = Some None →
  assigned enc' "labels" i k = Some (LInt (-100)).
Proof.
  intros Hrun Htags Hi Hws Hk.
  destruct (TokenFacts.preprocess_function_token self examples out enc' tags
              i label ws k None Hrun Htags Hi Hws Hk) as (z & Hz & Hal).
  cbn in Hal. by rewrite Hz, Hal.
Qed.

Lemma special_token_is_ignored_witness :
  assigned Fixture.ner_out "labels" 0 5 = Some (LInt (-100)).
Proof.
  apply (special_token_is_ignored (Fixture.self 16 None) Fixture.ner_batch
           [] Fixture.ner_out [Seq [LStr "B-ORG"; LInt 2]] 0
           (Seq [LStr "B-ORG"; LInt 2])
           [None; Some 0; Some 0; Some 0; Some 1; None]%nat 5).
  - vm_compute. reflexivity.
  - vm_compute. reflexivity.
  - reflexivity.
  - reflexivity.
  - reflexivity.
Defined.

(** C7. In a batch the token preprocessor returns, the ["labels"] column
    has one row per example, and the row of an example has exactly one entry
    per token the tokenizer produced for it. *)
Theorem one_label_per_subword_token {DD float} (self : trainer DD float)
    examples out enc' tags :
  HFTokenClassificationTrainer.preprocess_function self examples = (out, inr enc') →
  examples !! tagsLabel self = Some tags →
  ∃ column,
    data enc' !! "labels" = Some column
    ∧ length column = length tags
    ∧ ∀ i label, tags !! i = Some label →
        ∃ ws ids, encodings enc' !! i = Some ws
                  ∧ column !! i = Some (Seq (LInt <$> ids))
                  ∧ length ids = length ws.
Proof.
  intros (_ & tokens & tags' & enc & labels & _ & _ & Htags' & -> & Hlen & Hrows)%TokenFacts.token_preprocess_inr
         Htags.
  assert (tags' = tags) as -> by congruence.
  exists (HFTokenClassificationTrainer.labels_column labels).
  split_and!.
  - cbn. by rewrite lookup_insert_eq.
  - unfold HFTokenClassificationTrainer.labels_column. by rewrite length_fmap.
  - intros i label Hi.
    destruct (Hrows i label Hi) as (ws & ids & Hws & Hids & Hlen' & _).
    exists ws, ids. split_and!; [done| |done].
    unfold HFTokenClassificationTrainer.labels_column.
    by rewrite list_lookup_fmap, Hids.
Qed.

(** Two words, six tokens, six labels. *)
Lemma one_label_per_subword_token_witness :
  ∃ column,
    data Fixture.ner_out !! "labels" = Some column
    ∧ length column = length [Seq [LStr "B-ORG"; LInt 2]]
    ∧ ∀ i label, [Seq [LStr "B-ORG"; LInt 2]] !! i = Some label →
        ∃ ws ids, encodings Fixture.ner_out !! i = Some ws
                  ∧ column !! i = Some (Seq (LInt <$> ids))
                  ∧ length ids = length ws.
Proof.
  apply (one_label_per_subword_token (Fixture.self 16 None) Fixture.ner_batch
           [] Fixture.ner_out [Seq [LStr "B-ORG"; LInt 2]]).
  - vm_compute. reflexivity.
  - vm_compute. reflexivity.
Defined.

(** C10. The index tracked as "previous" is the one of the token just
    before, also when that token is a special token. So a token that has a
    source word index and comes right after a special token is labelled as
    the first piece of a word, whatever came before the special token; and
    there are batches in which the label of one word ends up at two
    positions this way. *)
Theorem label_repeats_after_special_token :
  (∀ DD float (self : trainer DD float) examples out enc' tags i label ws k w,
     HFTokenClassificationTrainer.preprocess_function self examples = (out, inr enc') →
     examples !! tagsLabel self = Some tags →
     tags !! i = Some label →
     encodings enc' !! i = Some ws →
     ws !! k = Some None →
     ws !! S k = Some (Some w) →
     previous_from None ws (S k) = None
     ∧ ∃ word_label z,
         word_label_of label w = Some word_label
         ∧ resolved (label2id (Model self)) word_label = Some z
         ∧ assigned enc' "labels" i (S k) = Some (LInt z))
  ∧ (∃ (self : trainer unit unit) examples enc' ws j k w z,
       HFTokenClassificationTrainer.preprocess_function self examples = ([], inr enc')
       ∧ encodings enc' !! 0%nat = Some ws
       ∧ (j < k)%nat
       ∧ ws !! j = Some (Some w) ∧ ws !! k = Some (Some w)
       ∧ z ≠ ignore_index
       ∧ assigned enc' "labels" 0 j = Some (LInt z)
       ∧ assigned enc' "labels" 0 k = Some (LInt z)).
Proof.
  split.
  - intros DD float self examples out enc' tags i label ws k w
           Hrun Htags Hi Hws Hk HSk.
    assert (previous_from None ws (S k) = None) as Hprev
      by (cbn; by rewrite Hk).
    split; [done|].
    destruct (TokenFacts.first_piece_label self examples out enc' tags
                i label ws (S k) w) as (wl & z & ? & ? & ?); try done.
    + by rewrite Hprev.
    + by exists wl, z.
  - exists (Fixture.self 16 None), Fixture.pair_batch, Fixture.pair_out,
      [None; Some 0; Some 0; Some 0; Some 1; None;
       Some 0; Some 0; Some 0; Some 1; None]%nat, 1%nat, 6%nat, 0%nat, 1.
    split_and!; try done; try lia; vm_compute; reflexivity.
Qed.

Lemma label_repeats_after_special_token_witness :
  previous_from None
    [None; Some 0; Some 0; Some 0; Some 1; None;
     Some 0; Some 0; Some 0; Some 1; None]%nat 6 = None
  ∧ ∃ word_label z,
      word_label_of (Seq [LStr "B-ORG"; LInt 2]) 0 = Some word_label
      ∧ resolved (label2id (Model (Fixture.self 16 None))) word_label = Some z
      ∧ assigned Fixture.pair_out "labels" 0 6 = Some (LInt z).
Proof.
  apply (proj1 label_repeats_after_special_token unit unit
           (Fixture.self 16 None) Fixture.pair_batch
           [] Fixture.pair_out [Seq [LStr "B-ORG"; LInt 2]] 0%nat
           (Seq [LStr "B-ORG"; LInt 2])
           [None; Some 0; Some 0; Some 0; Some 1; None;
            Some 0; Some 0; Some 0; Some 1; None]%nat 5%nat 0%nat).
  - vm_compute. reflexivity.
  - vm_compute. reflexivity.
  - reflexivity.
  - reflexivity.
  - reflexivity.
  - reflexivity.
Defined.

(** ** Unknown label names *)

Lemma bind_nil_inr {A B} (k : A → M B) a :
  ([], inr a) ≫= k = k a.
Proof. apply bind_ret_l. Qed.

(** A token with word index [w] occurs in [ws]: then some position holds
    its first piece. *)
Lemma first_piece_exists w ws : ∀ prev,
  prev ≠ Some w → Some w ∈ ws →
  ∃ k, ws !! k = Some (Some w) ∧ previous_from prev ws k ≠ Some w.
Proof.
  induction ws as [|x ws IH]; intros prev Hprev Hin.
  - by apply elem_of_nil in Hin.
  - destruct (decide (x = Some w)) as [->|Hx].
    + by exists 0%nat.
    + apply elem_of_cons in Hin as [?|Hin]; [done|].
      destruct (IH x Hx Hin) as (k & Hk & Hp).
      exists (S k). by rewrite TokenFacts.previous_from_cons.
Qed.

(** The two ways the inner loop can end when indexing cannot fail: with the
    labels and a silent stderr, or with the warning followed by the
    [KeyError] of an unknown name. *)
Lemma align_cases l2i xs ws : ∀ prev acc,
  (∀ w, Some w ∈ ws → (w < length xs)%nat) →
  (∃ ids, HFTokenClassificationTrainer.align l2i (Seq xs) ws prev acc = ([], inr ids))
  ∨ (∃ s, l2i !! s = None ∧ LStr s ∈ xs
          ∧ HFTokenClassificationTrainer.align l2i (Seq xs) ws prev acc
            = ([EStderr labels_warning], inl (KeyError s))).
Proof.
  induction ws as [|word_idx ws IH]; intros prev acc Hwf.
  - left. by exists acc.
  - cbn [HFTokenClassificationTrainer.align].
    assert (∀ w, Some w ∈ ws → (w < length xs)%nat) as Hwf'
      by (intros w Hw; apply Hwf; by right).
    destruct word_idx as [w|]; [destruct (decide (Some w ≠ prev))|].
    + destruct (lookup_lt_is_Some_2 xs w) as [x Hx]; [apply Hwf; by left|].
      cbn [HFTokenClassificationTrainer.subscript]. rewrite Hx.
      rewrite bind_ret_l.
      destruct (update_label_cases l2i x) as [(z & _ & ->)|(s & -> & Hs & ->)].
      * rewrite bind_nil_inr, bind_ret_l. apply IH, Hwf'.
      * right. exists s. split_and!; [done| |done].
        by apply list_elem_of_lookup_2 in Hx.
    + rewrite bind_ret_l. apply IH, Hwf'.
    + rewrite bind_ret_l. apply IH, Hwf'.
Qed.

Lemma align_examples_cases l2i enc tags : ∀ i acc,
  indexable enc tags i →
  (∃ labels, HFTokenClassificationTrainer.align_examples l2i enc i tags acc
             = ([], inr labels))
  ∨ (∃ s, l2i !! s = None ∧ (∃ xs, Seq xs ∈ tags ∧ LStr s ∈ xs)
          ∧ HFTokenClassificationTrainer.align_examples l2i enc i tags acc
            = ([EStderr labels_warning], inl (KeyError s))).
Proof.
  induction tags as [|label tags IH]; intros i acc Hwf.
  - left. by exists acc.
  - cbn [HFTokenClassificationTrainer.align_examples].
    destruct (Hwf 0%nat label eq_refl) as (ws & xs & Hws & -> & Hin).
    rewrite Nat.add_0_r in Hws. unfold word_ids. rewrite Hws, bind_ret_l.
    destruct (align_cases l2i xs ws None [] Hin) as [(ids & ->)|(s & Hs & Hxs & ->)].
    + rewrite bind_nil_inr.
      destruct (IH (S i) (acc ++ [ids])) as [?|(s & Hs & (xs' & Hxs' & Hs') & ->)].
      * intros j l Hj.
        replace (S i + j)%nat with (i + S j)%nat by lia. by apply Hwf.
      * by left.
      * right. exists s. split_and!; [done| |done].
        exists xs'. split; [by right|done].
    + right. exists s. split_and!; [done| |done].
      exists xs. split; [by left|done].
Qed.

(** ** Text classification: one integer label per example *)

Module TextFacts.
Import HFTextClassificationTrainer.

(** A run of the label loop that returns wrote nothing to stderr and added,
    in order, the resolved id of every cell. *)
Lemma update_labels_inr l2i column : ∀ acc out labels,
  update_labels l2i column acc = (out, inr labels) →
  out = [] ∧ ∃ rest, labels = acc ++ rest
    ∧ Forall2 (λ c z, ∃ x, c = Scalar x ∧ resolved l2i x = Some z) column rest.
Proof.
  induction column as [|label column IH]; intros acc out labels.
  - intros H. cbn in H. inv_ret H. split; [done|]. exists [].
    split; [by rewrite app_nil_r|constructor].
  - cbn [update_labels].
    intros (o1 & z & o2 & Hz & Hrest & ->)%bind_inr.
    apply IH in Hrest as (-> & rest & -> & Hall).
    destruct label as [x|xs]; [|by inv_ret Hz].
    apply update_label_inr in Hz as [Hz ->].
    split; [done|]. exists (z :: rest). split; [by rewrite <-app_assoc|].
    constructor; [by exists x|done].
Qed.

Lemma update_labels_cases l2i column : ∀ acc,
  (∀ c, c ∈ column → ∃ x, c = Scalar x) →
  (∃ labels, update_labels l2i column acc = ([], inr labels))
  ∨ (∃ s, l2i !! s = None ∧ Scalar (LStr s) ∈ column
          ∧ update_labels l2i column acc
            = ([EStderr labels_warning], inl (KeyError s))).
Proof.
  induction column as [|label column IH]; intros acc Hwf.
  - left. by exists acc.
  - cbn [update_labels].
    destruct (Hwf label) as [x ->]; [by left|].
    destruct (update_label_cases l2i x) as [(z & _ & ->)|(s & -> & Hs & ->)].
    + rewrite bind_nil_inr.
      destruct (IH (acc ++ [z])) as [?|(s & Hs & Hin & ->)].
      * intros c Hc. apply Hwf. by right.
      * by left.
      * right. exists s. split_and!; [done| |done]. by right.
    + right. exists s. split_and!; [done| |done]. by left.
Qed.

(** What a successful call of the text preprocessor looks like. *)
Lemma text_preprocess_inr {DD float} (self : trainer DD float) examples out enc' :
  preprocess_function self examples = (out, inr enc') →
  out = [] ∧ ∃ text column enc labels,
    examples !! textLabel self = Some text
    ∧ tokenizer (Model self) text (examples !! pairLabel self) false = inr enc
    ∧ examples !! "label" = Some column
    ∧ enc' = setitem enc "label" (label_column labels)
    ∧ Forall2 (λ c z, ∃ x, c = Scalar x ∧ resolved (label2id (Model self)) x = Some z)
        column labels.
Proof.
  unfold preprocess_function.
  intros (o1 & text & o2 & Htext & H & ->)%bind_inr.
  apply getitem_inr in Htext as [Htext ->].
  apply bind_inr in H as (o1 & enc & o3 & Henc & H & ->). inv_ret Henc.
  apply bind_inr in H as (o1 & column & o4 & Hcol & H & ->).
  apply getitem_inr in Hcol as [Hcol ->].
  apply bind_inr in H as (o1 & labels & o5 & Hlabels & H & ->). inv_ret H.
  apply update_labels_inr in Hlabels as (-> & rest & Heq & Hall).
  rewrite app_nil_l in Heq. subst rest.
  split; [done|]. by exists text, column, enc, labels.
Qed.

End TextFacts.

Example text_batch_run :
  HFTextClassificationTrainer.preprocess_function (Fixture.self 16 None) Fixture.text_batch
  = ([], inr Fixture.text_out).
Proof. vm_compute. reflexivity. Qed.

(** C8. In a batch the text preprocessor returns, the ["label"] column
    holds one integer per example, in the order of the input: the label
    itself where it was an [int], and its entry in [label2id] where it was
    a name. *)
Theorem text_labels_pass_through_or_resolve {DD float} (self : trainer DD float)
    examples out enc' column :
  HFTextClassificationTrainer.preprocess_function self examples = (out, inr enc') →
  examples !! "label" = Some column →
  ∃ labels : list Z,
    data enc' !! "label" = Some ((λ z, Scalar (LInt z)) <$> labels)
    ∧ length labels = length column
    ∧ ∀ i c, column !! i = Some c →
        match c with
        | Scalar (LInt n) => labels !! i = Some n
        | Scalar (LStr name) =>
            ∃ z, label2id (Model self) !! name = Some z ∧ labels !! i = Some z
        | Seq _ => False
        end.
Proof.
  intros (_ & text & column' & enc & labels & _ & _ & Hcol' & -> & Hall)%TextFacts.text_preprocess_inr
         Hcol.
  assert (column' = column) as -> by congruence.
  exists labels. split_and!.
  - cbn. by rewrite lookup_insert_eq.
  - symmetry. by eapply Forall2_length.
  - intros i c Hi.
    destruct (Forall2_lookup_l _ _ _ _ _ Hall Hi) as (z & Hz & x & -> & Hres).
    destruct x as [n|name]; cbn in Hres.
    + by simplify_eq.
    + by exists z.
Qed.

Lemma text_labels_pass_through_or_resolve_witness :
  ∃ labels : list Z,
    data Fixture.text_out !! "label" = Some ((λ z, Scalar (LInt z)) <$> labels)
    ∧ length labels = length [Scalar (LInt 7); Scalar (LStr "O"); Scalar (LStr "B-ORG")]
    ∧ ∀ i c, [Scalar (LInt 7); Scalar (LStr "O"); Scalar (LStr "B-ORG")] !! i = Some c →
        match c with
        | Scalar (LInt n) => labels !! i = Some n
        | Scalar (LStr name) =>
            ∃ z, label2id (Model (Fixture.self 16 None)) !! name = Some z
                 ∧ labels !! i = Some z
        | Seq _ => False
        end.
Proof.
  apply (text_labels_pass_through_or_resolve (Fixture.self 16 None)
           Fixture.text_batch [] Fixture.text_out).
  - vm_compute. reflexivity.
  - vm_compute. reflexivity.
Defined.

(** X6. The text preprocessor returns, with stderr silent, whenever its
    columns are there, the tokenizer returns, and every label is an [int]
    or a known name; the numbers of texts and of labels are not compared. *)
Lemma text_preprocess_returns {DD float} (self : trainer DD float)
    examples text enc column :
  examples !! textLabel self = Some text →
  tokenizer (Model self) text (examples !! pairLabel self) false = inr enc →
  examples !! "label" = Some column →
  (∀ c, c ∈ column → ∃ x, c = Scalar x ∧ is_Some (resolved (label2id (Model self)) x)) →
  ∃ enc', HFTextClassificationTrainer.preprocess_function self examples = ([], inr enc').
Proof.
  intros Htext Henc Hcol Hall.
  unfold HFTextClassificationTrainer.preprocess_function, getitem.
  rewrite Htext, bind_ret_l, Henc. unfold lift. rewrite bind_nil_inr.
  rewrite Hcol, bind_ret_l.
  destruct (TextFacts.update_labels_cases (label2id (Model self)) column [])
    as [(labels & ->)|(s & Hs & Hin & _)].
  - intros c Hc. destruct (Hall c Hc) as (x & -> & _). by exists x.
  - rewrite bind_nil_inr. by eexists.
  - destruct (Hall _ Hin) as (x & [= <-] & [z Hz]). cbn in Hz. congruence.
Qed.

(** X5. The token preprocessor returns, with stderr silent, whenever its
    columns are there, the tokenizer returns, indexing cannot fail, and
    every tag is an [int] or a known name. *)
Lemma token_preprocess_returns {DD float} (self : trainer DD float)
    examples tokens enc tags :
  examples !! tokensLabel self = Some tokens →
  tokenizer (Model self) tokens (examples !! pairLabel self) true = inr enc →
  examples !! tagsLabel self = Some tags →
  indexable enc tags 0 →
  (∀ xs x, Seq xs ∈ tags → x ∈ xs → is_Some (resolved (label2id (Model self)) x)) →
  ∃ enc', HFTokenClassificationTrainer.preprocess_function self examples = ([], inr enc').
Proof.
  intros Htok Henc Htags Hwf Hall.
  unfold HFTokenClassificationTrainer.preprocess_function, getitem.
  rewrite Htok, bind_ret_l, Henc. unfold lift. rewrite bind_nil_inr.
  rewrite Htags, bind_ret_l.
  destruct (align_examples_cases (label2id (Model self)) enc tags 0 [] Hwf)
    as [(labels & ->)|(s & Hs & (xs & Hxs & Hin) & _)].
  - rewrite bind_nil_inr. by eexists.
  - destruct (Hall xs _ Hxs Hin) as [z Hz]. cbn in Hz. congruence.
Qed.

(** C5, for the labels that are looked up. A label that is not an [int] and
    whose name is not in [label2id] makes the label update write the
    warning and then raise the dict's [KeyError]. Nothing catches it: the
    text preprocessor ends that way as soon as its label column holds such
    a name, and the token preprocessor as soon as such a name is the tag of
    a word that has a token. *)
Theorem unknown_label_name_warns_then_raises :
  (∀ l2i name, l2i !! name = None →
     update_label l2i (LStr name) = ([EStderr labels_warning], inl (KeyError name)))
  ∧ (∀ DD float (self : trainer DD float) examples text enc column name,
       examples !! textLabel self = Some text →
       tokenizer (Model self) text (examples !! pairLabel self) false = inr enc →
       examples !! "label" = Some column →
       (∀ c, c ∈ column → ∃ x, c = Scalar x) →
       Scalar (LStr name) ∈ column →
       label2id (Model self) !! name = None →
       ∃ name', label2id (Model self) !! name' = None
                ∧ Scalar (LStr name') ∈ column
                ∧ HFTextClassificationTrainer.preprocess_function self examples
                  = ([EStderr labels_warning], inl (KeyError name')))
  ∧ (∀ DD float (self : trainer DD float) examples tokens enc tags i xs ws w name,
       examples !! tokensLabel self = Some tokens →
       tokenizer (Model self) tokens (examples !! pairLabel self) true = inr enc →
       examples !! tagsLabel self = Some tags →
       indexable enc tags 0 →
       tags !! i = Some (Seq xs) →
       encodings enc !! i = Some ws →
       Some w ∈ ws →
       xs !! w = Some (LStr name) →
       label2id (Model self) !! name = None →
       ∃ name', label2id (Model self) !! name' = None
                ∧ (∃ xs', Seq xs' ∈ tags ∧ LStr name' ∈ xs')
                ∧ HFTokenClassificationTrainer.preprocess_function self examples
                  = ([EStderr labels_warning], inl (KeyError name'))).
Proof.
  split_and!.
  - apply update_label_unknown.
  - intros DD float self examples text enc column name
           Htext Henc Hcol Hwf Hin Hname.
    unfold HFTextClassificationTrainer.preprocess_function, getitem.
    rewrite Htext, bind_ret_l, Henc. unfold lift. rewrite bind_nil_inr.
    rewrite Hcol, bind_ret_l.
    destruct (TextFacts.update_labels_cases (label2id (Model self)) column [] Hwf)
      as [(labels & Hrun)|(s & Hs & Hin' & ->)].
    + apply TextFacts.update_labels_inr in Hrun as (_ & rest & _ & Hall).
      apply list_elem_of_lookup in Hin as [j Hj].
      destruct (Forall2_lookup_l _ _ _ _ _ Hall Hj) as (z & _ & x & [= <-] & Hres).
      cbn in Hres. congruence.
    + by exists s.
  - intros DD float self examples tokens enc tags i xs ws w name
           Htok Henc Htags Hwf Hi Hws Hw Hxs Hname.
    unfold HFTokenClassificationTrainer.preprocess_function, getitem.
    rewrite Htok, bind_ret_l, Henc. unfold lift. rewrite bind_nil_inr.
    rewrite Htags, bind_ret_l.
    destruct (align_examples_cases (label2id (Model self)) enc tags 0 [] Hwf)
      as [(labels & Hrun)|(s & Hs & Hin' & ->)].
    + apply TokenFacts.align_examples_inr in Hrun as (_ & rest & _ & _ & Hrows).
      destruct (Hrows i _ Hi) as (ws' & ids & Hws' & _ & _ & Hal).
      cbn in Hws'. assert (ws' = ws) as -> by congruence.
      destruct (first_piece_exists w ws None) as (k & Hk & Hprev); [done..|].
      destruct (Hal k _ Hk) as (z & _ & Hz).
      unfold aligned_with in Hz. rewrite decide_False in Hz by congruence.
      destruct Hz as (word_label & Hwl & Hres). cbn in Hwl.
      assert (word_label = LStr name) as -> by congruence.
      cbn in Hres. congruence.
    + by exists s.
Qed.

Lemma unknown_label_name_warns_then_raises_witness :
  (∃ name', label2id (Model (Fixture.self 16 None)) !! name' = None
            ∧ Scalar (LStr name') ∈ [Scalar (LInt 1); Scalar (LStr "neutral")]
            ∧ HFTextClassificationTrainer.preprocess_function
                (Fixture.self 16 None) Fixture.unknown_label_batch
              = ([EStderr labels_warning], inl (KeyError name')))
  ∧ (∃ name', label2id (Model (Fixture.self 16 None)) !! name' = None
              ∧ (∃ xs', Seq xs' ∈ [Seq [LStr "B-ORG"; LStr "B-LOC"]] ∧ LStr name' ∈ xs')
              ∧ HFTokenClassificationTrainer.preprocess_function
                  (Fixture.self 16 None) Fixture.unknown_tag_batch
                = ([EStderr labels_warning], inl (KeyError name'))).
Proof.
  split.
  - apply (proj1 (proj2 unknown_label_name_warns_then_raises) unit unit
             (Fixture.self 16 None) Fixture.unknown_label_batch
             [Scalar (LStr "good"); Scalar (LStr "bad")]
             {| data := {[ "input_ids" := replicate 2 (Seq (replicate 3 (LInt 0))) ]};
                encodings := replicate 2 [None; Some 0%nat; None] |}
             [Scalar (LInt 1); Scalar (LStr "neutral")] "neutral").
    + vm_compute. reflexivity.
    + vm_compute. reflexivity.
    + vm_compute. reflexivity.
    + intros c Hc. apply elem_of_cons in Hc as [->|Hc]; [by eexists|].
      apply elem_of_cons in Hc as [->|Hc]; [by eexists|].
      by apply elem_of_nil in Hc.
    + right. left.
    + vm_compute. reflexivity.
  - apply (proj2 (proj2 unknown_label_name_warns_then_raises) unit unit
             (Fixture.self 16 None) Fixture.unknown_tag_batch
             [Seq [LStr "HuggingFace"; LStr "Inc"]]
             Fixture.ner_encoding
             [Seq [LStr "B-ORG"; LStr "B-LOC"]] 0%nat
             [LStr "B-ORG"; LStr "B-LOC"]
             [None; Some 0; Some 0; Some 0; Some 1; None]%nat 1%nat "B-LOC").
    + vm_compute. reflexivity.
    + vm_compute. reflexivity.
    + vm_compute. reflexivity.
    + intros [|j] label Hj; [|done]. injection Hj as <-.
      exists [None; Some 0; Some 0; Some 0; Some 1; None]%nat,
             [LStr "B-ORG"; LStr "B-LOC"].
      split_and!; [done..|]. intros w Hw. cbn.
      repeat (apply elem_of_cons in Hw as [Hw|Hw]; [simplify_eq; lia|]).
      by apply elem_of_nil in Hw.
    + reflexivity.
    + reflexivity.
    + do 4 right. left.
    + reflexivity.
    + vm_compute. reflexivity.
Defined.

(** C5 does not hold for every unknown name anywhere in the tags: under a
    tokenizer limited to four tokens the second word of the example gets no
    token, its tag ["B-LOC"] is never looked up, and the preprocessor
    returns without a word on stderr. *)
Lemma unknown_tag_of_truncated_word_is_not_looked_up :
  ¬ (∀ (self : trainer unit unit) examples tags xs name,
       examples !! tagsLabel self = Some tags →
       Seq xs ∈ tags →
       LStr name ∈ xs →
       label2id (Model self) !! name = None →
       ∃ name', HFTokenClassificationTrainer.preprocess_function self examples
                = ([EStderr labels_warning], inl (KeyError name'))).
Proof.
  intros Hclaim.
  destruct (Hclaim (Fixture.self 4 None) Fixture.unknown_tag_batch
              [Seq [LStr "B-ORG"; LStr "B-LOC"]]
              [LStr "B-ORG"; LStr "B-LOC"] "B-LOC") as [name' Hrun].
  - vm_compute. reflexivity.
  - left.
  - right. left.
  - vm_compute. reflexivity.
  - assert (HFTokenClassificationTrainer.preprocess_function
              (Fixture.self 4 None) Fixture.unknown_tag_batch
            = ([], inr Fixture.truncated_out)) as Hok
      by (vm_compute; reflexivity).
    rewrite Hok in Hrun. discriminate.
Qed.

(** ** Token metrics: positions with the ignore label are left out *)

Lemma keep_fold (pairs : list (Z * Z)) : ∀ acc,
  foldl HFTokenClassificationTrainer.keep acc pairs
  = (acc.1 ++ (filter (λ pl, pl.2 ≠ ignore_index) pairs).*1,
     acc.2 ++ (filter (λ pl, pl.2 ≠ ignore_index) pairs).*2).
Proof.
  induction pairs as [|[p l] pairs IH]; intros [tp tl]; cbn.
  - by rewrite !app_nil_r.
  - rewrite IH.
    destruct (decide (l ≠ ignore_index)); cbn; [|done].
    by rewrite <-!app_assoc.
Qed.

Lemma keep_row_fold (rows : list (list Z * list Z)) : ∀ acc,
  foldl HFTokenClassificationTrainer.keep_row acc rows
  = (acc.1 ++ (filter (λ pl, pl.2 ≠ ignore_index)
                 (mjoin ((λ row : list Z * list Z, zip row.1 row.2) <$> rows))).*1,
     acc.2 ++ (filter (λ pl, pl.2 ≠ ignore_index)
                 (mjoin ((λ row : list Z * list Z, zip row.1 row.2) <$> rows))).*2).
Proof.
  induction rows as [|[prediction label] rows IH]; intros [tp tl]; cbn.
  - by rewrite !app_nil_r.
  - rewrite IH, keep_fold. cbn. rewrite filter_app, !fmap_app.
    by rewrite <-!app_assoc.
Qed.

(** The two lists the loops build are the kept positions, split. *)
Lemma true_pairs_kept predictions labels :
  HFTokenClassificationTrainer.true_pairs predictions labels
  = ((kept_positions predictions labels).*1, (kept_positions predictions labels).*2).
Proof.
  unfold HFTokenClassificationTrainer.true_pairs. by rewrite keep_row_fold.
Qed.

Lemma kept_row_agree label : ∀ prediction prediction',
  rows_agree prediction prediction' label →
  filter (λ pl : Z * Z, pl.2 ≠ ignore_index) (zip prediction label)
  = filter (λ pl : Z * Z, pl.2 ≠ ignore_index) (zip prediction' label).
Proof.
  induction label as [|l label IH]; intros prediction prediction' [Hlen Hag].
  - by rewrite !zip_with_nil_r.
  - destruct prediction as [|p prediction], prediction' as [|p' prediction'];
      try done.
    assert (rows_agree prediction prediction' label) as Hrest.
    { split; [by injection Hlen|].
      intros j q q' x ? ? ?. by apply (Hag (S j)). }
    apply IH in Hrest. cbn.
    destruct (decide (l ≠ ignore_index)); [|exact Hrest].
    rewrite (Hag 0%nat p p' l) by done. f_equal. exact Hrest.
Qed.

Lemma kept_positions_agree labels : ∀ predictions predictions',
  batches_agree predictions predictions' labels →
  kept_positions predictions labels = kept_positions predictions' labels.
Proof.
  unfold kept_positions.
  induction labels as [|label labels IH]; intros predictions predictions' [Hlen Hag].
  - by rewrite !zip_with_nil_r.
  - destruct predictions as [|row predictions], predictions' as [|row' predictions'];
      try done.
    cbn. rewrite !filter_app. f_equal.
    + apply kept_row_agree. by apply (Hag 0%nat).
    + apply IH. split; [by injection Hlen|].
      intros i r r' l ? ? ?. by apply (Hag (S i)).
Qed.

(** C4. The token metrics are computed over the kept positions only: the
    batch of predicted classes and the batch of references are flattened
    into two parallel lists that hold exactly the positions whose reference
    is not -100, and the four metrics see nothing else. Predictions
    [1,2,3] with references [1,-100,3] leave positions 0 and 2; and what is
    predicted at a position whose reference is -100 never changes the
    result. *)
Theorem token_metrics_over_kept_positions `{Numpy score} `{Evaluate num} :
  (∀ (logits : list (list (list score))) (labels : list (list Z)),
     let predictions := (λ row : list (list score), argmax <$> row) <$> logits in
     let kept := kept_positions predictions labels in
     HFTokenClassificationTrainer.compute_metrics (logits, labels)
     = f1 kept.*1 kept.*2 "weighted"
       ∪ (recall kept.*1 kept.*2 "weighted" 0
          ∪ (precision kept.*1 kept.*2 "weighted" 0 ∪ accuracy kept.*1 kept.*2))
     ∧ HFTokenClassificationTrainer.true_pairs predictions labels = (kept.*1, kept.*2)
     ∧ length kept.*1 = length kept.*2
     ∧ Forall (λ l, l ≠ -100) kept.*2)
  ∧ kept_positions [[1; 2; 3]] [[1; -100; 3]] = [(1, 1); (3, 3)]
  ∧ HFTokenClassificationTrainer.true_pairs [[1; 2; 3]] [[1; -100; 3]] = ([1; 3], [1; 3])
  ∧ (∀ (logits logits' : list (list (list score))) (labels : list (list Z)),
       batches_agree ((λ row : list (list score), argmax <$> row) <$> logits)
                     ((λ row : list (list score), argmax <$> row) <$> logits')
                     labels →
       HFTokenClassificationTrainer.compute_metrics (logits, labels)
       = HFTokenClassificationTrainer.compute_metrics (logits', labels)).
Proof.
  split_and!.
  - intros logits labels predictions kept.
    unfold HFTokenClassificationTrainer.compute_metrics. cbn [fst snd].
    fold predictions. rewrite true_pairs_kept. fold kept.
    split_and!; [done..| |].
    + by rewrite !length_fmap.
    + apply Forall_fmap, Forall_forall. intros pl Hpl.
      by apply list_elem_of_filter in Hpl as [Hpl _].
  - reflexivity.
  - reflexivity.
  - intros logits logits' labels Hag.
    unfold HFTokenClassificationTrainer.compute_metrics. cbn [fst snd].
    rewrite !true_pairs_kept.
    by rewrite (kept_positions_agree labels _ _ Hag).
Qed.

(** Two batches of logits whose predictions differ only at the middle
    position, where the reference is -100. *)
Lemma token_metrics_over_kept_positions_witness :
  @HFTokenClassificationTrainer.compute_metrics Z Fixture.numpy _ Fixture.counting
    ([[[0; 1]; [0; 1]; [1; 0]]], [[1; -100; 0]])
  = @HFTokenClassificationTrainer.compute_metrics Z Fixture.numpy _ Fixture.counting
    ([[[0; 1]; [1; 0]; [1; 0]]], [[1; -100; 0]]).
Proof.
  apply (proj2 (proj2 (proj2
           (@token_metrics_over_kept_positions Z Fixture.numpy _ Fixture.counting)))
           [[[0; 1]; [0; 1]; [1; 0]]] [[[0; 1]; [1; 0]; [1; 0]]] [[1; -100; 0]]).
  split; [reflexivity|].
  intros [|i] row row' label Hrow Hrow' Hlabel; [|done].
  cbn in Hrow, Hrow', Hlabel. simplify_eq.
  split; [reflexivity|].
  intros [|[|[|j]]] p p' l Hp Hp' Hl Hne; cbn in Hp, Hp', Hl; by simplify_eq.
Defined.

Example token_metrics_run :
  @HFTokenClassificationTrainer.compute_metrics Z Fixture.numpy _ Fixture.counting
    ([[[0; 1]; [0; 1]; [1; 0]]], [[1; -100; 1]])
  = {[ "accuracy" := (1, 2)%nat; "precision" := (1, 2)%nat;
       "recall" := (1, 2)%nat; "f1" := (1, 2)%nat ]}.
Proof. vm_compute. reflexivity. Qed.

(** ** Orchestration *)

Lemma bind_ext {A B} (m : M A) (k k' : A → M B) :
  (∀ a, k a = k' a) → m ≫= k = m ≫= k'.
Proof.
  intros Hk. destruct m as [out [e|a]]; [done|].
  unfold mbind, M_bind; cbn. by rewrite Hk.
Qed.

Lemma not_elem_of_events (ev : event) (events : list event) :
  Forall (λ ev', ev ≠ ev') events → ev ∉ events.
Proof.
  intros Hall Hin. rewrite Forall_forall in Hall. by apply (Hall ev).
Qed.

Lemma bind_events {A B} (P : event → Prop) (m : M A) (k : A → M B) :
  Forall P m.1 → (∀ a, Forall P (k a).1) → Forall P (m ≫= k).1.
Proof.
  destruct m as [out [e|a]]; cbn; intros Hm Hk; [done|].
  apply Forall_app. split; [done|apply Hk].
Qed.

Lemma lift_inr {A} (r : exn + A) out a :
  lift r = (out, inr a) → r = inr a ∧ out = [].
Proof. unfold lift. intros Heq. by simplify_eq. Qed.

Lemma bind_out_inr {A B} (m : M A) (k : A → M B) out a :
  m = (out, inr a) → m ≫= k = (out ++ (k a).1, (k a).2).
Proof. by intros ->. Qed.

Lemma bind_out_inl {A B} (m : M A) (k : A → M B) out e :
  m = (out, inl e) → m ≫= k = (out, inl e).
Proof. by intros ->. Qed.

Section orchestration.
Context `{DatasetAPI DD DS} `{TrainerBase DD float} `{Transformers DS float}.

Lemma dataset_split_Some (self : trainer DD float) d name x :
  dataset self = Some d → dd_split d name = Some x →
  dataset_split self name = ret x.
Proof. intros Hd Hx. unfold dataset_split. by rewrite Hd, Hx. Qed.

Lemma dataset_split_inr (self : trainer DD float) name out x :
  dataset_split self name = (out, inr x) →
  ∃ d, dataset self = Some d ∧ dd_split d name = Some x ∧ out = [].
Proof.
  unfold dataset_split. destruct (dataset self) as [d|]; [|intros Hx; by inv_ret Hx].
  destruct (dd_split d name) eqn:Hs; intros Hx; inv_ret Hx. by exists d.
Qed.

Lemma dataset_split_quiet (self : trainer DD float) name :
  (dataset_split self name).1 = [].
Proof.
  unfold dataset_split. destruct (dataset self) as [d|]; [|done].
  by destruct (dd_split d name).
Qed.

Lemma run_on_tokenized_skips fn g (self : trainer DD float) d :
  skips_preprocessing (run_on_tokenized fn g self d).1.
Proof.
  assert (Forall (λ ev, ev ≠ EMap ∧ ev ≠ ESetDataset
                        ∧ ev ≠ EStderr ("Tokenizing the dataset..." +:+ newline))
            (run_on_tokenized fn g self d).1) as Hall.
  { unfold run_on_tokenized.
    repeat (apply bind_events; [|intros ?; cbv beta zeta]);
      try rewrite dataset_split_quiet; try destruct (verbose _);
      cbn; repeat constructor; discriminate. }
  rewrite Forall_forall in Hall.
  unfold skips_preprocessing.
  split_and!; intros Hin; apply Hall in Hin; by destruct Hin as (? & ? & ?).
Qed.

(** What a run of [run_on_tokenized] that returns went through. *)
Lemma run_on_tokenized_inv fn g (self : trainer DD float) d out self' hf :
  run_on_tokenized fn g self d = (out, inr (self', hf)) →
  self' = with_dataset self (Some (dd_shuffle (Some 42) g d)) (data_collator self)
  ∧ out = closing_events self'
  ∧ hf = trainer_for fn self' (train_dataset hf) (eval_dataset hf)
  ∧ dd_split (dd_shuffle (Some 42) g d) "train" = Some (train_dataset hf)
  ∧ dd_split (dd_shuffle (Some 42) g d) "valid" = Some (eval_dataset hf)
  ∧ library_accepts hf.
Proof.
  unfold run_on_tokenized. intros Hrun.
  apply bind_inr in Hrun as (o1 & [] & o2 & Hemit & Hrun & ->); inv_ret Hemit.
  apply bind_inr in Hrun as (o3 & [] & o4 & [Hargs ->]%lift_inr & Hrun & ->).
  apply bind_inr in Hrun as (o5 & train_ds & o6 & Htrain & Hrun & ->).
  apply dataset_split_inr in Htrain as (d1 & Hd1 & Htrain & ->).
  apply bind_inr in Hrun as (o7 & eval_ds & o8 & Hvalid & Hrun & ->).
  apply dataset_split_inr in Hvalid as (d2 & Hd2 & Hvalid & ->).
  apply bind_inr in Hrun as (o9 & [] & o10 & [Hnew ->]%lift_inr & Hrun & ->).
  apply bind_inr in Hrun as (o11 & [] & o12 & Hemit & Hrun & ->); inv_ret Hemit.
  apply bind_inr in Hrun as (o13 & [] & o14 & [Hrun' ->]%lift_inr & Hrun & ->).
  apply bind_inr in Hrun as (o15 & [] & o16 & Hnotice & Hrun & ->).
  apply bind_inr in Hrun as (o17 & [] & o18 & Hemit & Hrun & ->); inv_ret Hemit.
  apply bind_inr in Hrun as (o19 & [] & o20 & [Hsave ->]%lift_inr & Hrun & ->).
  inv_ret Hrun. cbn [dataset with_dataset] in Hd1. simplify_eq.
  split_and!; try done.
  unfold closing_events. cbn [verbose modelfpath with_dataset] in *.
  destruct (verbose self); unfold stderr_write in Hnotice; inv_ret Hnotice;
    reflexivity.
Qed.

Lemma run_on_tokenized_inr fn g (self : trainer DD float) d out self' hf :
  run_on_tokenized fn g self d = (out, inr (self', hf)) →
  self' = with_dataset self (Some (dd_shuffle (Some 42) g d)) (data_collator self)
  ∧ dd_split (dd_shuffle (Some 42) g d) "train" = Some (train_dataset hf)
  ∧ dd_split (dd_shuffle (Some 42) g d) "valid" = Some (eval_dataset hf)
  ∧ compute_metrics_fn hf = fn
  ∧ EShuffle (Some 42) ∈ out.
Proof.
  intros (-> & -> & Hhf & Htr & Hva & _)%run_on_tokenized_inv.
  split_and!; try done; [by rewrite Hhf|left].
Qed.

(** With both splits in the shuffled dataset and a training library that
    goes through, [run_on_tokenized] returns. *)
Lemma run_on_tokenized_returns fn g (self : trainer DD float) d tr va :
  let self' := with_dataset self (Some (dd_shuffle (Some 42) g d)) (data_collator self) in
  dd_split (dd_shuffle (Some 42) g d) "train" = Some tr →
  dd_split (dd_shuffle (Some 42) g d) "valid" = Some va →
  library_accepts (trainer_for fn self' tr va) →
  run_on_tokenized fn g self d
  = (closing_events self', inr (self', trainer_for fn self' tr va)).
Proof.
  intros self' Htr Hva (Hargs & Hnew & Hrun & Hsave).
  unfold run_on_tokenized. cbv zeta. fold self'.
  cbn [args trainer_for] in Hargs. rewrite Hargs.
  rewrite (dataset_split_Some self' _ "train" tr eq_refl Htr).
  rewrite (dataset_split_Some self' _ "valid" va eq_refl Hva).
  rewrite !bind_ret_l.
  change {| args := training_arguments self'; train_dataset := tr;
            eval_dataset := va; hf_data_collator := data_collator self';
            compute_metrics_fn := fn |} with (trainer_for fn self' tr va).
  rewrite Hnew, Hrun, Hsave. unfold closing_events.
  by destruct (verbose self').
Qed.

(** When the library rejects the training arguments, the run ends there,
    before the splits are looked up. *)
Lemma run_on_tokenized_rejected fn g (self : trainer DD float) d e :
  new_TrainingArguments
    (training_arguments
       (with_dataset self (Some (dd_shuffle (Some 42) g d)) (data_collator self)))
  = inl e →
  run_on_tokenized fn g self d = ([EShuffle (Some 42)], inl e).
Proof. intros Hargs. unfold run_on_tokenized. cbv zeta. by rewrite Hargs. Qed.

(** From the shuffle on, the two [train] functions are [run_on_tokenized]. *)
Lemma token_train_tail g (self : trainer DD float) d tr :
  dataset self = Some d →
  dd_split d "train" = Some tr →
  "input_ids" ∈ features tr →
  HFTokenClassificationTrainer.train g self = run_on_tokenized TokenMetrics g self d.
Proof.
  intros Hd Htr Hin. unfold HFTokenClassificationTrainer.train.
  rewrite Hd, bind_ret_l.
  rewrite (dataset_split_Some self d "train" tr Hd Htr), bind_ret_l.
  rewrite decide_False by (by intros Hn). by rewrite bind_ret_l, Hd, bind_ret_l.
Qed.

Lemma text_train_tail g (self : trainer DD float) d tr :
  dataset self = Some d →
  dd_split d "train" = Some tr →
  "input_ids" ∈ features tr →
  HFTextClassificationTrainer.train g self = run_on_tokenized TextMetrics g self d.
Proof.
  intros Hd Htr Hin. unfold HFTextClassificationTrainer.train.
  rewrite Hd, bind_ret_l.
  rewrite (dataset_split_Some self d "train" tr Hd Htr), bind_ret_l.
  rewrite decide_False by (by intros Hn). by rewrite bind_ret_l, Hd, bind_ret_l.
Qed.

(** On a dataset that is not tokenized and that the preprocessor maps
    over, the two [train] functions are the mapping followed by
    [run_on_tokenized] on the mapped dataset. *)
Lemma token_train_mapped g (self : trainer DD float) d tr out d' :
  dataset self = Some d →
  dd_split d "train" = Some tr →
  "input_ids" ∉ features tr →
  dd_map (HFTokenClassificationTrainer.preprocess_function self) d = (out, inr d') →
  let self2 := with_dataset self (Some d') (Some DataCollatorForTokenClassification) in
  HFTokenClassificationTrainer.train g self
  = (tokenizing_notice self ++ EMap :: out
       ++ (run_on_tokenized TokenMetrics g self2 d').1,
     (run_on_tokenized TokenMetrics g self2 d').2).
Proof.
  intros Hd Htr Hin Hmap self2. unfold HFTokenClassificationTrainer.train.
  rewrite Hd, bind_ret_l.
  rewrite (dataset_split_Some self d "train" tr Hd Htr), bind_ret_l.
  rewrite decide_True by done.
  assert (HFTokenClassificationTrainer.preprocess_dataset self
          = (tokenizing_notice self ++ EMap :: out, inr self2)) as Hprep.
  { unfold HFTokenClassificationTrainer.preprocess_dataset, tokenizing_notice.
    rewrite Hd, Hmap. destruct (verbose self); cbn; by rewrite app_nil_r. }
  rewrite (bind_out_inr _ _ _ _ Hprep).
  rewrite <-app_assoc. reflexivity.
Qed.

Lemma text_train_mapped g (self : trainer DD float) d tr out d' :
  dataset self = Some d →
  dd_split d "train" = Some tr →
  "input_ids" ∉ features tr →
  dd_map (HFTextClassificationTrainer.preprocess_function self) d = (out, inr d') →
  let self2 := with_dataset self (Some d') (Some DataCollatorWithPadding) in
  HFTextClassificationTrainer.train g self
  = (tokenizing_notice self ++ EMap :: out
       ++ (run_on_tokenized TextMetrics g self2 d').1,
     (run_on_tokenized TextMetrics g self2 d').2).
Proof.
  intros Hd Htr Hin Hmap self2. unfold HFTextClassificationTrainer.train.
  rewrite Hd, bind_ret_l.
  rewrite (dataset_split_Some self d "train" tr Hd Htr), bind_ret_l.
  rewrite decide_True by done.
  assert (HFTextClassificationTrainer.preprocess_dataset self
          = (tokenizing_notice self ++ EMap :: out, inr self2)) as Hprep.
  { unfold HFTextClassificationTrainer.preprocess_dataset, tokenizing_notice.
    rewrite Hd, bind_ret_l, Hd, Hmap.
    destruct (verbose self); cbn; by rewrite app_nil_r. }
  rewrite (bind_out_inr _ _ _ _ Hprep).
  rewrite <-app_assoc. reflexivity.
Qed.

(** Every run of [train] that returns has shuffled with seed 42 and handed
    the splits of the shuffled dataset to the trainer. *)
Lemma token_train_inr g (self : trainer DD float) out self' hf :
  HFTokenClassificationTrainer.train g self = (out, inr (self', hf)) →
  EShuffle (Some 42) ∈ out
  ∧ ∃ d, dataset self' = Some (dd_shuffle (Some 42) g d)
         ∧ dd_split (dd_shuffle (Some 42) g d) "train" = Some (train_dataset hf)
         ∧ dd_split (dd_shuffle (Some 42) g d) "valid" = Some (eval_dataset hf).
Proof.
  intros Hrun. unfold HFTokenClassificationTrainer.train in Hrun.
  apply bind_inr in Hrun as (o1 & self1 & o2 & _ & Hrun & ->).
  apply bind_inr in Hrun as (o3 & tr & o4 & _ & Hrun & ->).
  apply bind_inr in Hrun as (o5 & self2 & o6 & _ & Hrun & ->).
  apply bind_inr in Hrun as (o7 & d & o8 & _ & Hrun & ->).
  change (run_on_tokenized TokenMetrics g self2 d = (o8, inr (self', hf))) in Hrun.
  apply run_on_tokenized_inr in Hrun as (-> & Htr & Hva & _ & Hin).
  split; [set_solver|]. by exists d.
Qed.

Lemma text_train_inr g (self : trainer DD float) out self' hf :
  HFTextClassificationTrainer.train g self = (out, inr (self', hf)) →
  EShuffle (Some 42) ∈ out
  ∧ ∃ d, dataset self' = Some (dd_shuffle (Some 42) g d)
         ∧ dd_split (dd_shuffle (Some 42) g d) "train" = Some (train_dataset hf)
         ∧ dd_split (dd_shuffle (Some 42) g d) "valid" = Some (eval_dataset hf).
Proof.
  intros Hrun. unfold HFTextClassificationTrainer.train in Hrun.
  apply bind_inr in Hrun as (o1 & self1 & o2 & _ & Hrun & ->).
  apply bind_inr in Hrun as (o3 & tr & o4 & _ & Hrun & ->).
  apply bind_inr in Hrun as (o5 & self2 & o6 & _ & Hrun & ->).
  apply bind_inr in Hrun as (o7 & d & o8 & _ & Hrun & ->).
  change (run_on_tokenized TextMetrics g self2 d = (o8, inr (self', hf))) in Hrun.
  apply run_on_tokenized_inr in Hrun as (-> & Htr & Hva & _ & Hin).
  split; [set_solver|]. by exists d.
Qed.

(** With a seeded shuffle that ignores the generator, so does [train]. *)
Lemma token_train_deterministic g g' (self : trainer DD float) :
  seeded_shuffle_ignores_generator →
  HFTokenClassificationTrainer.train g self = HFTokenClassificationTrainer.train g' self.
Proof.
  intros Hseed. unfold HFTokenClassificationTrainer.train.
  apply bind_ext; intros self1. apply bind_ext; intros tr.
  apply bind_ext; intros self2. apply bind_ext; intros d.
  by rewrite (Hseed 42 g g' d).
Qed.

Lemma text_train_deterministic g g' (self : trainer DD float) :
  seeded_shuffle_ignores_generator →
  HFTextClassificationTrainer.train g self = HFTextClassificationTrainer.train g' self.
Proof.
  intros Hseed. unfold HFTextClassificationTrainer.train.
  apply bind_ext; intros self1. apply bind_ext; intros tr.
  apply bind_ext; intros self2. apply bind_ext; intros d.
  by rewrite (Hseed 42 g g' d).
Qed.

End orchestration.

Lemma fixture_shuffle_keeps_features :
  @shuffle_keeps_features _ _ Fixture.datasets.
Proof.
  intros seed g d name. cbn. rewrite lookup_fmap.
  by destruct (d !! name).
Qed.

Lemma fixture_seeded_shuffle :
  @seeded_shuffle_ignores_generator _ _ Fixture.datasets.
Proof. by intros seed g g' d. Qed.

(** Without a seed the fixture's shuffle does follow the generator. *)
Example fixture_unseeded_shuffle :
  @dd_shuffle _ _ Fixture.datasets None 1 Fixture.raw_dataset
  ≠ @dd_shuffle _ _ Fixture.datasets None 2 Fixture.raw_dataset.
Proof.
  intros Heq. apply (f_equal (λ d, Fixture.rows <$> d !! "train")) in Heq.
  vm_compute in Heq. discriminate.
Qed.

(** C6. When the train split of the dataset already has the feature
    ["input_ids"], [train] of either trainer skips preprocessing: it goes
    straight to the shuffle. The dataset it leaves behind is the shuffled
    one, so, the shuffle keeping the features, a second call skips
    preprocessing again. *)
Theorem tokenized_dataset_skips_preprocessing
    `{DatasetAPI DD DS} `{TrainerBase DD float} `{Transformers DS float}
    (self : trainer DD float) d tr g :
  dataset self = Some d →
  dd_split d "train" = Some tr →
  "input_ids" ∈ features tr →
  (skips_preprocessing (HFTokenClassificationTrainer.train g self).1
   ∧ skips_preprocessing (HFTextClassificationTrainer.train g self).1)
  ∧ ∀ out self' hf,
      HFTokenClassificationTrainer.train g self = (out, inr (self', hf))
      ∨ HFTextClassificationTrainer.train g self = (out, inr (self', hf)) →
      dataset self' = Some (dd_shuffle (Some 42) g d)
      ∧ data_collator self' = data_collator self
      ∧ (shuffle_keeps_features → ∀ g',
           skips_preprocessing (HFTokenClassificationTrainer.train g' self').1
           ∧ skips_preprocessing (HFTextClassificationTrainer.train g' self').1).
Proof.
  intros Hd Htr Hin.
  rewrite (token_train_tail g self d tr Hd Htr Hin).
  rewrite (text_train_tail g self d tr Hd Htr Hin).
  split; [split; apply run_on_tokenized_skips|].
  intros out self' hf Hrun.
  assert (∃ fn, run_on_tokenized fn g self d = (out, inr (self', hf)))
    as [fn Hrun'] by (destruct Hrun; eauto).
  apply run_on_tokenized_inr in Hrun' as (-> & Htr' & _ & _ & _).
  split_and!; [done..|]. intros Hkeep g'.
  specialize (Hkeep (Some 42) g d "train"). rewrite Htr', Htr in Hkeep.
  injection Hkeep as Hkeep.
  set (self' := with_dataset self _ _).
  assert ("input_ids" ∈ features (train_dataset hf)) as Hin' by (by rewrite Hkeep).
  rewrite (token_train_tail g' self' _ _ eq_refl Htr' Hin').
  rewrite (text_train_tail g' self' _ _ eq_refl Htr' Hin').
  split; apply run_on_tokenized_skips.
Qed.

Lemma tokenized_dataset_skips_preprocessing_witness :
  skips_preprocessing
    (@HFTokenClassificationTrainer.train _ _ Fixture.datasets _ Fixture.base Fixture.transformers 7
       (Fixture.orchestrator (Some Fixture.tokenized_dataset))).1
  ∧ skips_preprocessing
      (@HFTextClassificationTrainer.train _ _ Fixture.datasets _ Fixture.base Fixture.transformers 7
         (Fixture.orchestrator (Some Fixture.tokenized_dataset))).1.
Proof.
  apply (@tokenized_dataset_skips_preprocessing _ _ Fixture.datasets _ Fixture.base Fixture.transformers
           (Fixture.orchestrator (Some Fixture.tokenized_dataset))
           Fixture.tokenized_dataset
           {| Fixture.rows := seq 0 50;
              Fixture.split_features := {[ "tokens"; "tags"; "input_ids"; "labels" ]} |}
           7%nat).
  - reflexivity.
  - vm_compute. reflexivity.
  - cbn. set_solver.
Defined.

(** C9. Both trainers shuffle with the seed 42. A run of [train] that
    returns has called [shuffle(seed=42)], and the splits it trained on are
    those of the dataset shuffled with that seed. Such runs exist: on a
    tokenized dataset, and on one that the preprocessor maps over, [train]
    returns as soon as the shuffled dataset has the two splits and the
    training library goes through, and what it returns is the dataset
    shuffled with seed 42 and a trainer on the splits of that dataset. As a
    seeded shuffle does not depend on the state of the random generator,
    two runs from the same trainer end the same way, with the examples in
    the same order. *)
Theorem shuffle_uses_fixed_seed
    `{DatasetAPI DD DS} `{TrainerBase DD float} `{Transformers DS float} :
  (∀ g (self : trainer DD float) out self' hf,
     HFTokenClassificationTrainer.train g self = (out, inr (self', hf))
     ∨ HFTextClassificationTrainer.train g self = (out, inr (self', hf)) →
     EShuffle (Some 42) ∈ out
     ∧ ∃ d, dataset self' = Some (dd_shuffle (Some 42) g d)
            ∧ dd_split (dd_shuffle (Some 42) g d) "train" = Some (train_dataset hf)
            ∧ dd_split (dd_shuffle (Some 42) g d) "valid" = Some (eval_dataset hf))
  ∧ (∀ g (self : trainer DD float) d tr tr' va',
       dataset self = Some d →
       dd_split d "train" = Some tr →
       "input_ids" ∈ features tr →
       dd_split (dd_shuffle (Some 42) g d) "train" = Some tr' →
       dd_split (dd_shuffle (Some 42) g d) "valid" = Some va' →
       let self' := with_dataset self (Some (dd_shuffle (Some 42) g d))
                      (data_collator self) in
       (library_accepts (trainer_for TokenMetrics self' tr' va') →
        HFTokenClassificationTrainer.train g self
        = ([EShuffle (Some 42); ETrain]
             ++ (if verbose self
                 then [EStderr ("Saving final model to " +:+ modelfpath self
                                +:+ "..." +:+ newline)]
                 else [])
             ++ [ESaveModel],
           inr (self', trainer_for TokenMetrics self' tr' va')))
       ∧ (library_accepts (trainer_for TextMetrics self' tr' va') →
          HFTextClassificationTrainer.train g self
          = ([EShuffle (Some 42); ETrain]
               ++ (if verbose self
                   then [EStderr ("Saving final model to " +:+ modelfpath self
                                  +:+ "..." +:+ newline)]
                   else [])
               ++ [ESaveModel],
             inr (self', trainer_for TextMetrics self' tr' va'))))
  ∧ (∀ g (self : trainer DD float) d tr out d' tr' va',
       dataset self = Some d →
       dd_split d "train" = Some tr →
       "input_ids" ∉ features tr →
       dd_split (dd_shuffle (Some 42) g d') "train" = Some tr' →
       dd_split (dd_shuffle (Some 42) g d') "valid" = Some va' →
       (let self' := with_dataset self (Some (dd_shuffle (Some 42) g d'))
                       (Some DataCollatorForTokenClassification) in
        dd_map (HFTokenClassificationTrainer.preprocess_function self) d
        = (out, inr d') →
        library_accepts (trainer_for TokenMetrics self' tr' va') →
        HFTokenClassificationTrainer.train g self
        = (tokenizing_notice self ++ EMap :: out ++ closing_events self',
           inr (self', trainer_for TokenMetrics self' tr' va')))
       ∧ (let self' := with_dataset self (Some (dd_shuffle (Some 42) g d'))
                         (Some DataCollatorWithPadding) in
          dd_map (HFTextClassificationTrainer.preprocess_function self) d
          = (out, inr d') →
          library_accepts (trainer_for TextMetrics self' tr' va') →
          HFTextClassificationTrainer.train g self
          = (tokenizing_notice self ++ EMap :: out ++ closing_events self',
             inr (self', trainer_for TextMetrics self' tr' va'))))
  ∧ (seeded_shuffle_ignores_generator →
     ∀ g g' (self : trainer DD float),
       HFTokenClassificationTrainer.train g self
       = HFTokenClassificationTrainer.train g' self
       ∧ HFTextClassificationTrainer.train g self
         = HFTextClassificationTrainer.train g' self).
Proof.
  split_and!.
  - intros g self out self' hf [Hrun|Hrun].
    + by apply token_train_inr in Hrun.
    + by apply text_train_inr in Hrun.
  - intros g self d tr tr' va' Hd Htr Hin Htr' Hva' self'. split; intros Hlib.
    + rewrite (token_train_tail g self d tr Hd Htr Hin).
      by rewrite (run_on_tokenized_returns TokenMetrics g self d tr' va' Htr' Hva' Hlib).
    + rewrite (text_train_tail g self d tr Hd Htr Hin).
      by rewrite (run_on_tokenized_returns TextMetrics g self d tr' va' Htr' Hva' Hlib).
  - intros g self d tr out d' tr' va' Hd Htr Hin Htr' Hva'.
    split; intros self' Hmap Hlib.
    + rewrite (token_train_mapped g self d tr out d' Hd Htr Hin Hmap).
      by rewrite (run_on_tokenized_returns TokenMetrics g
                    (with_dataset self (Some d') (Some DataCollatorForTokenClassification))
                    d' tr' va' Htr' Hva' Hlib).
    + rewrite (text_train_mapped g self d tr out d' Hd Htr Hin Hmap).
      by rewrite (run_on_tokenized_returns TextMetrics g
                    (with_dataset self (Some d') (Some DataCollatorWithPadding))
                    d' tr' va' Htr' Hva' Hlib).
  - intros Hseed g g' self. split.
    + by apply token_train_deterministic.
    + by apply text_train_deterministic.
Qed.

(** Runs with the generator in different states. On the tokenized dataset
    both return the dataset shuffled with seed 42 and a trainer on its
    splits, whose rows come in the same order; so does a run of the text
    trainer on the raw dataset, after the mapping; and two runs on the raw
    dataset are the same. *)
Lemma shuffle_uses_fixed_seed_witness :
  let self := Fixture.orchestrator (Some Fixture.tokenized_dataset) in
  let raw := Fixture.orchestrator (Some Fixture.raw_dataset) in
  let features : gset string := {[ "tokens"; "tags"; "input_ids"; "labels" ]} in
  let mapped : gset string := {[ "tokens"; "tags"; "input_ids"; "attention_mask" ]} in
  let train_split fs := {| Fixture.rows := rotate 42 (seq 0 50);
                           Fixture.split_features := fs |} in
  let valid_split fs := {| Fixture.rows := rotate 42 (seq 50 10);
                           Fixture.split_features := fs |} in
  let self' := with_dataset self
                 (Some (@dd_shuffle _ _ Fixture.datasets (Some 42) 1
                          Fixture.tokenized_dataset)) None in
  let raw' := with_dataset raw
                (Some {[ "train" := train_split mapped; "valid" := valid_split mapped ]})
                (Some DataCollatorWithPadding) in
  let closing := [EShuffle (Some 42); ETrain;
                  EStderr ("Saving final model to out..." +:+ newline); ESaveModel] in
  (@HFTokenClassificationTrainer.train _ _ Fixture.datasets _ Fixture.base
     Fixture.transformers 1 self
   = (closing,
      inr (self', trainer_for TokenMetrics self'
                    (train_split features) (valid_split features)))
   ∧ @HFTokenClassificationTrainer.train _ _ Fixture.datasets _ Fixture.base
       Fixture.transformers 2 self
     = (closing,
        inr (self', trainer_for TokenMetrics self'
                      (train_split features) (valid_split features))))
  ∧ @HFTextClassificationTrainer.train _ _ Fixture.datasets _ Fixture.base
      Fixture.transformers 1 raw
    = (EStderr ("Tokenizing the dataset..." +:+ newline) :: EMap :: closing,
       inr (raw', trainer_for TextMetrics raw'
                    (train_split mapped) (valid_split mapped)))
  ∧ @HFTokenClassificationTrainer.train _ _ Fixture.datasets _ Fixture.base
      Fixture.transformers 1 raw
    = @HFTokenClassificationTrainer.train _ _ Fixture.datasets _ Fixture.base
        Fixture.transformers 2 raw
  ∧ @HFTextClassificationTrainer.train _ _ Fixture.datasets _ Fixture.base
      Fixture.transformers 1 raw
    = @HFTextClassificationTrainer.train _ _ Fixture.datasets _ Fixture.base
        Fixture.transformers 2 raw.
Proof.
  intros self raw features mapped train_split valid_split self' raw' closing.
  pose proof (@shuffle_uses_fixed_seed _ _ Fixture.datasets _ Fixture.base
                Fixture.transformers) as (_ & Htokenized & Hraw & Hseed).
  split_and!.
  - destruct (Htokenized 1%nat self Fixture.tokenized_dataset
                {| Fixture.rows := seq 0 50; Fixture.split_features := features |}
                (train_split features) (valid_split features)) as [Htoken _].
    + reflexivity.
    + vm_compute. reflexivity.
    + vm_compute. set_solver.
    + vm_compute. reflexivity.
    + vm_compute. reflexivity.
    + rewrite Htoken; [vm_compute; reflexivity|]. vm_compute. by split_and!.
  - destruct (Htokenized 2%nat self Fixture.tokenized_dataset
                {| Fixture.rows := seq 0 50; Fixture.split_features := features |}
                (train_split features) (valid_split features)) as [Htoken _].
    + reflexivity.
    + vm_compute. reflexivity.
    + vm_compute. set_solver.
    + vm_compute. reflexivity.
    + vm_compute. reflexivity.
    + rewrite Htoken; [vm_compute; reflexivity|]. vm_compute. by split_and!.
  - destruct (Hraw 1%nat raw Fixture.raw_dataset
                {| Fixture.rows := seq 0 50;
                   Fixture.split_features := {[ "tokens"; "tags" ]} |}
                []
                {[ "train" := {| Fixture.rows := seq 0 50;
                                 Fixture.split_features := mapped |};
                   "valid" := {| Fixture.rows := seq 50 10;
                                 Fixture.split_features := mapped |} ]}
                (train_split mapped) (valid_split mapped)) as [_ Htext].
    + reflexivity.
    + vm_compute. reflexivity.
    + vm_compute. set_solver.
    + vm_compute. reflexivity.
    + vm_compute. reflexivity.
    + rewrite Htext; [vm_compute; reflexivity| |].
      * vm_compute. reflexivity.
      * vm_compute. by split_and!.
  - exact (proj1 (Hseed (λ seed g g' d, eq_refl) 1%nat 2%nat raw)).
  - exact (proj2 (Hseed (λ seed g g' d, eq_refl) 1%nat 2%nat raw)).
Defined.

Example train_run :
  (@HFTokenClassificationTrainer.train _ _ Fixture.datasets _ Fixture.base Fixture.transformers 1
     (Fixture.orchestrator None)).1
  = [ESetDataset; EStderr ("Tokenizing the dataset..." +:+ newline); EMap;
     EShuffle (Some 42); ETrain;
     EStderr ("Saving final model to out..." +:+ newline); ESaveModel].
Proof. vm_compute. reflexivity. Qed.

(** Two calls in a row on a trainer without a dataset: the first loads and
    tokenizes it, the second finds ["input_ids"] and goes straight to the
    shuffle. *)
Example train_twice :
  match @HFTokenClassificationTrainer.train _ _ Fixture.datasets _ Fixture.base Fixture.transformers 1
          (Fixture.orchestrator None) with
  | (_, inr (self', _)) =>
      (@HFTokenClassificationTrainer.train _ _ Fixture.datasets _ Fixture.base Fixture.transformers 2 self').1
      = [EShuffle (Some 42); ETrain;
         EStderr ("Saving final model to out..." +:+ newline); ESaveModel]
  | (_, inl _) => False
  end.
Proof. vm_compute. reflexivity. Qed.

(** * Further properties of the two preprocessors *)

(** X1. The token preprocessor's three early exits: without the tokens
    column it raises the [KeyError] of that column's name before the
    tokenizer is called; an exception of the tokenizer passes through; and
    without the tags column it raises the [KeyError] of that name after
    tokenizing. Stderr stays silent in all three. *)
Theorem token_preprocess_early_exits {DD float} (self : trainer DD float) examples :
  (examples !! tokensLabel self = None →
     HFTokenClassificationTrainer.preprocess_function self examples
     = ([], inl (KeyError (tokensLabel self))))
  ∧ (∀ tokens e,
       examples !! tokensLabel self = Some tokens →
       tokenizer (Model self) tokens (examples !! pairLabel self) true = inl e →
       HFTokenClassificationTrainer.preprocess_function self examples = ([], inl e))
  ∧ (∀ tokens enc,
       examples !! tokensLabel self = Some tokens →
       tokenizer (Model self) tokens (examples !! pairLabel self) true = inr enc →
       examples !! tagsLabel self = None →
       HFTokenClassificationTrainer.preprocess_function self examples
       = ([], inl (KeyError (tagsLabel self)))).
Proof.
  unfold HFTokenClassificationTrainer.preprocess_function, getitem.
  split_and!.
  - by intros ->.
  - intros tokens e -> Henc. rewrite bind_ret_l, Henc. reflexivity.
  - intros tokens enc -> Henc Htags. rewrite bind_ret_l, Henc.
    unfold lift. rewrite bind_nil_inr. by rewrite Htags.
Qed.

Lemma token_preprocess_early_exits_witness :
  HFTokenClassificationTrainer.preprocess_function
    (Fixture.self 16 None) Fixture.tags_only_batch
  = ([], inl (KeyError "tokens"))
  ∧ HFTokenClassificationTrainer.preprocess_function
      Fixture.failing_self Fixture.ner_batch
    = ([], inl (External "tokenizer"))
  ∧ HFTokenClassificationTrainer.preprocess_function
      (Fixture.self 16 None) Fixture.tokens_only_batch
    = ([], inl (KeyError "tags")).
Proof.
  split_and!.
  - apply (proj1 (token_preprocess_early_exits
                    (Fixture.self 16 None) Fixture.tags_only_batch)).
    vm_compute. reflexivity.
  - apply (proj1 (proj2 (token_preprocess_early_exits
                           Fixture.failing_self Fixture.ner_batch))
             [Seq [LStr "HuggingFace"; LStr "Inc"]] (External "tokenizer")).
    + vm_compute. reflexivity.
    + reflexivity.
  - apply (proj2 (proj2 (token_preprocess_early_exits
                           (Fixture.self 16 None) Fixture.tokens_only_batch))
             [Seq [LStr "HuggingFace"; LStr "Inc"]] Fixture.ner_encoding).
    + vm_compute. reflexivity.
    + vm_compute. reflexivity.
    + vm_compute. reflexivity.
Defined.

(** X2. The same for the text preprocessor, whose label column is always
    called ["label"]. *)
Theorem text_preprocess_early_exits {DD float} (self : trainer DD float) examples :
  (examples !! textLabel self = None →
     HFTextClassificationTrainer.preprocess_function self examples
     = ([], inl (KeyError (textLabel self))))
  ∧ (∀ text e,
       examples !! textLabel self = Some text →
       tokenizer (Model self) text (examples !! pairLabel self) false = inl e →
       HFTextClassificationTrainer.preprocess_function self examples = ([], inl e))
  ∧ (∀ text enc,
       examples !! textLabel self = Some text →
       tokenizer (Model self) text (examples !! pairLabel self) false = inr enc →
       examples !! "label" = None →
       HFTextClassificationTrainer.preprocess_function self examples
       = ([], inl (KeyError "label"))).
Proof.
  unfold HFTextClassificationTrainer.preprocess_function, getitem.
  split_and!.
  - by intros ->.
  - intros text e -> Henc. rewrite bind_ret_l, Henc. reflexivity.
  - intros text enc -> Henc Hcol. rewrite bind_ret_l, Henc.
    unfold lift. rewrite bind_nil_inr. by rewrite Hcol.
Qed.

Lemma text_preprocess_early_exits_witness :
  HFTextClassificationTrainer.preprocess_function
    (Fixture.self 16 None) Fixture.label_only_batch
  = ([], inl (KeyError "text"))
  ∧ HFTextClassificationTrainer.preprocess_function
      Fixture.failing_self Fixture.text_batch
    = ([], inl (External "tokenizer"))
  ∧ HFTextClassificationTrainer.preprocess_function
      (Fixture.self 16 None) Fixture.text_only_batch
    = ([], inl (KeyError "label")).
Proof.
  split_and!.
  - apply (proj1 (text_preprocess_early_exits
                    (Fixture.self 16 None) Fixture.label_only_batch)).
    vm_compute. reflexivity.
  - apply (proj1 (proj2 (text_preprocess_early_exits
                           Fixture.failing_self Fixture.text_batch))
             [Scalar (LStr "good"); Scalar (LStr "bad"); Scalar (LStr "fine")]
             (External "tokenizer")).
    + vm_compute. reflexivity.
    + reflexivity.
  - apply (proj2 (proj2 (text_preprocess_early_exits
                           (Fixture.self 16 None) Fixture.text_only_batch))
             [Scalar (LStr "good")]
             {| data := {[ "input_ids" := [Seq (replicate 3 (LInt 0))] ]};
                encodings := [[None; Some 0%nat; None]] |}).
    + vm_compute. reflexivity.
    + vm_compute. reflexivity.
    + vm_compute. reflexivity.
Defined.

Lemma quiet_ret {A} l2i (a : A) : quiet_or_unknown l2i (ret a).
Proof. by left. Qed.

Lemma quiet_raise {A} l2i e : quiet_or_unknown (A := A) l2i (raise e).
Proof. by left. Qed.

Lemma quiet_bind {A B} l2i (m : M A) (k : A → M B) :
  quiet_or_unknown l2i m → (∀ a, quiet_or_unknown l2i (k a)) →
  quiet_or_unknown l2i (m ≫= k).
Proof.
  intros Hm Hk. destruct m as [out [e|a]].
  - change ((out, inl e) ≫= k) with ((out, inl e) : M B).
    unfold quiet_or_unknown in *. cbn in *.
    destruct Hm as [->|(-> & name & Hname & He)]; [by left|].
    right. split; [done|]. exists name. split; [done|]. by simplify_eq.
  - destruct Hm as [Hm|(_ & name & _ & He)]; [|by cbn in He].
    cbn in Hm. subst out. rewrite bind_nil_inr. apply Hk.
Qed.

Lemma quiet_update_label l2i x : quiet_or_unknown l2i (update_label l2i x).
Proof.
  destruct (update_label_cases l2i x) as [(z & _ & ->)|(s & _ & Hs & ->)].
  - by left.
  - right. split; [done|]. by exists s.
Qed.

Lemma quiet_align l2i label ws : ∀ prev acc,
  quiet_or_unknown l2i (HFTokenClassificationTrainer.align l2i label ws prev acc).
Proof.
  induction ws as [|word_idx ws IH]; intros prev acc; [apply quiet_ret|].
  cbn [HFTokenClassificationTrainer.align].
  apply quiet_bind; [|intros ids; apply IH].
  destruct word_idx as [w|]; [|apply quiet_ret].
  destruct (decide (Some w ≠ prev)); [|apply quiet_ret].
  apply quiet_bind.
  - unfold HFTokenClassificationTrainer.subscript.
    destruct label as [[z|s]|xs].
    + apply quiet_raise.
    + destruct (String.get w s); [apply quiet_ret|apply quiet_raise].
    + destruct (xs !! w); [apply quiet_ret|apply quiet_raise].
  - intros x. apply quiet_bind; [apply quiet_update_label|].
    intros z. apply quiet_ret.
Qed.

Lemma quiet_align_examples l2i enc tags : ∀ i acc,
  quiet_or_unknown l2i (HFTokenClassificationTrainer.align_examples l2i enc i tags acc).
Proof.
  induction tags as [|label tags IH]; intros i acc; [apply quiet_ret|].
  cbn [HFTokenClassificationTrainer.align_examples].
  apply quiet_bind.
  - unfold word_ids. destruct (encodings enc !! i); [apply quiet_ret|apply quiet_raise].
  - intros ws. apply quiet_bind; [apply quiet_align|]. intros ids. apply IH.
Qed.

Lemma quiet_getitem {V} l2i (d : gmap string V) k : quiet_or_unknown l2i (getitem d k).
Proof. unfold getitem. destruct (d !! k); [apply quiet_ret|apply quiet_raise]. Qed.

(** X3. Whatever the batch, the token preprocessor writes to stderr at most
    once, and only the warning about labels; when it does, it ends with the
    [KeyError] of a name that [label2id] lacks. A call that returns, or
    that fails in any other way, leaves stderr silent. *)
Theorem token_preprocess_warns_only_before_key_error {DD float}
    (self : trainer DD float) examples :
  quiet_or_unknown (label2id (Model self))
    (HFTokenClassificationTrainer.preprocess_function self examples).
Proof.
  unfold HFTokenClassificationTrainer.preprocess_function.
  apply quiet_bind; [apply quiet_getitem|]. intros tokens.
  apply quiet_bind; [by left|]. intros enc.
  apply quiet_bind; [apply quiet_getitem|]. intros tags.
  apply quiet_bind; [apply quiet_align_examples|]. intros labels.
  apply quiet_ret.
Qed.

Lemma quiet_update_labels l2i column : ∀ acc,
  quiet_or_unknown l2i (HFTextClassificationTrainer.update_labels l2i column acc).
Proof.
  induction column as [|label column IH]; intros acc; [apply quiet_ret|].
  cbn [HFTextClassificationTrainer.update_labels].
  apply quiet_bind; [|intros z; apply IH].
  destruct label as [x|xs]; [apply quiet_update_label|apply quiet_raise].
Qed.

(** X4. The same for the text preprocessor. *)
Theorem text_preprocess_warns_only_before_key_error {DD float}
    (self : trainer DD float) examples :
  quiet_or_unknown (label2id (Model self))
    (HFTextClassificationTrainer.preprocess_function self examples).
Proof.
  unfold HFTextClassificationTrainer.preprocess_function.
  apply quiet_bind; [apply quiet_getitem|]. intros text.
  apply quiet_bind; [by left|]. intros enc.
  apply quiet_bind; [apply quiet_getitem|]. intros column.
  apply quiet_bind; [apply quiet_update_labels|]. intros labels.
  apply quiet_ret.
Qed.

(** [token_preprocess_returns] at work on the two-word sentence. *)
Lemma token_preprocess_returns_witness :
  ∃ enc', HFTokenClassificationTrainer.preprocess_function
            (Fixture.self 16 None) Fixture.ner_batch = ([], inr enc').
Proof.
  apply (token_preprocess_returns (Fixture.self 16 None) Fixture.ner_batch
           [Seq [LStr "HuggingFace"; LStr "Inc"]] Fixture.ner_encoding
           [Seq [LStr "B-ORG"; LInt 2]]).
  - vm_compute. reflexivity.
  - vm_compute. reflexivity.
  - vm_compute. reflexivity.
  - intros [|j] label Hj; [|done]. injection Hj as <-.
    exists [None; Some 0; Some 0; Some 0; Some 1; None]%nat, [LStr "B-ORG"; LInt 2].
    split_and!; [done..|]. intros w Hw. cbn.
    repeat (apply elem_of_cons in Hw as [Hw|Hw]; [simplify_eq; lia|]).
    by apply elem_of_nil in Hw.
  - intros xs x Hxs Hx.
    apply elem_of_cons in Hxs as [Hxs|Hxs]; [|by apply elem_of_nil in Hxs].
    injection Hxs as ->.
    repeat (apply elem_of_cons in Hx as [->|Hx]; [by eexists|]).
    by apply elem_of_nil in Hx.
Defined.

(** [text_preprocess_returns] at work on three labelled texts. *)
Lemma text_preprocess_returns_witness :
  ∃ enc', HFTextClassificationTrainer.preprocess_function
            (Fixture.self 16 None) Fixture.text_batch = ([], inr enc').
Proof.
  apply (text_preprocess_returns (Fixture.self 16 None) Fixture.text_batch
           [Scalar (LStr "good"); Scalar (LStr "bad"); Scalar (LStr "fine")]
           {| data := {[ "input_ids" := replicate 3 (Seq (replicate 3 (LInt 0))) ]};
              encodings := replicate 3 [None; Some 0%nat; None] |}
           [Scalar (LInt 7); Scalar (LStr "O"); Scalar (LStr "B-ORG")]).
  - vm_compute. reflexivity.
  - vm_compute. reflexivity.
  - vm_compute. reflexivity.
  - intros c Hc.
    repeat (apply elem_of_cons in Hc as [->|Hc]; [eexists; split; [done|by eexists]|]).
    by apply elem_of_nil in Hc.
Defined.

(** With tags that all resolve, the inner loop can only fail on an index. *)
Lemma align_cases_resolvable l2i xs ws : ∀ prev acc,
  (∀ x, x ∈ xs → is_Some (resolved l2i x)) →
  (∃ ids, HFTokenClassificationTrainer.align l2i (Seq xs) ws prev acc = ([], inr ids))
  ∨ HFTokenClassificationTrainer.align l2i (Seq xs) ws prev acc = ([], inl IndexError).
Proof.
  induction ws as [|word_idx ws IH]; intros prev acc Hres.
  - left. by exists acc.
  - cbn [HFTokenClassificationTrainer.align].
    destruct word_idx as [w|]; [destruct (decide (Some w ≠ prev))|].
    + cbn [HFTokenClassificationTrainer.subscript].
      destruct (xs !! w) as [x|] eqn:Hx; [|by right].
      rewrite bind_ret_l.
      destruct (Hres x) as [z Hz]; [by apply list_elem_of_lookup_2 in Hx|].
      rewrite (update_label_resolved l2i x z Hz), bind_nil_inr, bind_ret_l.
      by apply IH.
    + rewrite bind_ret_l. by apply IH.
    + rewrite bind_ret_l. by apply IH.
Qed.

Lemma align_examples_cases_resolvable l2i enc tags : ∀ i acc,
  tags_resolvable l2i enc tags i →
  (∃ labels, HFTokenClassificationTrainer.align_examples l2i enc i tags acc
             = ([], inr labels))
  ∨ HFTokenClassificationTrainer.align_examples l2i enc i tags acc
    = ([], inl IndexError).
Proof.
  induction tags as [|label tags IH]; intros i acc Hres.
  - left. by exists acc.
  - cbn [HFTokenClassificationTrainer.align_examples].
    destruct (Hres 0%nat label eq_refl) as (ws & xs & Hws & -> & Hxs).
    rewrite Nat.add_0_r in Hws. unfold word_ids. rewrite Hws, bind_ret_l.
    destruct (align_cases_resolvable l2i xs ws None [] Hxs) as [(ids & ->)| ->];
      [|by right].
    rewrite bind_nil_inr. apply IH. intros j l Hj.
    replace (S i + j)%nat with (i + S j)%nat by lia. by apply Hres.
Qed.

(** X7. Tags that are too short for the words: when a token's word index
    lies beyond the tag list of its example, and the tags that are there all
    resolve, the token preprocessor raises an [IndexError] and writes
    nothing. *)
Theorem word_index_beyond_tags_raises_index_error {DD float}
    (self : trainer DD float) examples tokens enc tags i xs ws w :
  examples !! tokensLabel self = Some tokens →
  tokenizer (Model self) tokens (examples !! pairLabel self) true = inr enc →
  examples !! tagsLabel self = Some tags →
  tags_resolvable (label2id (Model self)) enc tags 0 →
  tags !! i = Some (Seq xs) →
  encodings enc !! i = Some ws →
  Some w ∈ ws →
  (length xs ≤ w)%nat →
  HFTokenClassificationTrainer.preprocess_function self examples
  = ([], inl IndexError).
Proof.
  intros Htok Henc Htags Hres Hi Hws Hw Hlen.
  unfold HFTokenClassificationTrainer.preprocess_function, getitem.
  rewrite Htok, bind_ret_l, Henc. unfold lift. rewrite bind_nil_inr.
  rewrite Htags, bind_ret_l.
  destruct (align_examples_cases_resolvable (label2id (Model self)) enc tags 0 [] Hres)
    as [(labels & Hrun)| ->]; [|done].
  apply TokenFacts.align_examples_inr in Hrun as (_ & rest & _ & _ & Hrows).
  destruct (Hrows i _ Hi) as (ws' & ids & Hws' & _ & _ & Hal).
  cbn in Hws'. assert (ws' = ws) as -> by congruence.
  destruct (first_piece_exists w ws None) as (k & Hk & Hprev); [done..|].
  destruct (Hal k _ Hk) as (z & _ & Hz).
  unfold aligned_with in Hz. rewrite decide_False in Hz by congruence.
  destruct Hz as (word_label & Hwl & _). cbn in Hwl.
  apply lookup_lt_Some in Hwl. lia.
Qed.

Lemma word_index_beyond_tags_raises_index_error_witness :
  HFTokenClassificationTrainer.preprocess_function
    (Fixture.self 16 None) Fixture.short_tags_batch
  = ([], inl IndexError).
Proof.
  apply (word_index_beyond_tags_raises_index_error
           (Fixture.self 16 None) Fixture.short_tags_batch
           [Seq [LStr "HuggingFace"; LStr "Inc"]] Fixture.ner_encoding
           [Seq [LStr "B-ORG"]] 0 [LStr "B-ORG"]
           [None; Some 0; Some 0; Some 0; Some 1; None]%nat 1).
  - vm_compute. reflexivity.
  - vm_compute. reflexivity.
  - vm_compute. reflexivity.
  - intros [|j] label Hj; [|done]. injection Hj as <-.
    exists [None; Some 0; Some 0; Some 0; Some 1; None]%nat, [LStr "B-ORG"].
    split_and!; [done..|]. intros x Hx.
    apply elem_of_cons in Hx as [->|Hx]; [by eexists|].
    by apply elem_of_nil in Hx.
  - reflexivity.
  - reflexivity.
  - do 4 right. left.
  - cbn. lia.
Defined.

Lemma align_agree l2i xs xs' ws : ∀ prev acc,
  (∀ w, Some w ∈ ws → xs !! w = xs' !! w) →
  HFTokenClassificationTrainer.align l2i (Seq xs) ws prev acc
  = HFTokenClassificationTrainer.align l2i (Seq xs') ws prev acc.
Proof.
  induction ws as [|word_idx ws IH]; intros prev acc Hag; [done|].
  cbn [HFTokenClassificationTrainer.align].
  assert (∀ ids, HFTokenClassificationTrainer.align l2i (Seq xs) ws word_idx ids
                 = HFTokenClassificationTrainer.align l2i (Seq xs') ws word_idx ids)
    as Hrest by (intros ids; apply IH; intros w Hw; apply Hag; by right).
  destruct word_idx as [w|]; [destruct (decide (Some w ≠ prev))|].
  - cbn [HFTokenClassificationTrainer.subscript].
    rewrite (Hag w) by left. by apply bind_ext.
  - by apply bind_ext.
  - by apply bind_ext.
Qed.

Lemma align_examples_agree l2i enc tags : ∀ tags' i acc,
  length tags = length tags' →
  (∀ j label label', tags !! j = Some label → tags' !! j = Some label' →
     ∃ xs xs', label = Seq xs ∧ label' = Seq xs'
       ∧ ∀ ws w, encodings enc !! (i + j)%nat = Some ws → Some w ∈ ws →
           xs !! w = xs' !! w) →
  HFTokenClassificationTrainer.align_examples l2i enc i tags' acc
  = HFTokenClassificationTrainer.align_examples l2i enc i tags acc.
Proof.
  induction tags as [|label tags IH]; intros [|label' tags'] i acc Hlen Hag;
    try done.
  cbn [HFTokenClassificationTrainer.align_examples].
  destruct (Hag 0%nat label label' eq_refl eq_refl) as (xs & xs' & -> & -> & Hxs).
  rewrite Nat.add_0_r in Hxs.
  unfold word_ids. destruct (encodings enc !! i) as [ws|] eqn:Hws; [|done].
  rewrite !bind_ret_l.
  rewrite (align_agree l2i xs xs' ws None [] (λ w Hw, Hxs ws w eq_refl Hw)).
  apply bind_ext. intros ids. apply IH; [by injection Hlen|].
  intros j l l' Hj Hj'.
  replace (S i + j)%nat with (i + S j)%nat by lia. by apply Hag.
Qed.

(** X8. The tags of words that have no token do not matter: replacing the
    tags column by one that agrees with it on every word that has a token
    leaves the result of the token preprocessor unchanged. *)
Theorem tags_of_words_without_tokens_are_irrelevant {DD float}
    (self : trainer DD float) examples tokens enc tags tags' :
  tagsLabel self ≠ tokensLabel self →
  tagsLabel self ≠ pairLabel self →
  examples !! tokensLabel self = Some tokens →
  tokenizer (Model self) tokens (examples !! pairLabel self) true = inr enc →
  examples !! tagsLabel self = Some tags →
  tags_agree enc tags tags' →
  HFTokenClassificationTrainer.preprocess_function self
    (<[tagsLabel self := tags']> examples)
  = HFTokenClassificationTrainer.preprocess_function self examples.
Proof.
  intros Hne Hne' Htok Henc Htags [Hlen Hag].
  unfold HFTokenClassificationTrainer.preprocess_function, getitem.
  rewrite (lookup_insert_ne examples (tagsLabel self) (tokensLabel self)) by done.
  rewrite (lookup_insert_ne examples (tagsLabel self) (pairLabel self)) by done.
  rewrite lookup_insert_eq.
  rewrite Htok, !bind_ret_l, Henc. unfold lift. rewrite !bind_nil_inr.
  rewrite Htags, !bind_ret_l.
  by rewrite (align_examples_agree (label2id (Model self)) enc tags tags' 0 [] Hlen Hag).
Qed.

(** Under a four-token limit the second word has no token, and its tag can
    be anything. *)
Lemma tags_of_words_without_tokens_are_irrelevant_witness :
  HFTokenClassificationTrainer.preprocess_function (Fixture.self 4 None)
    (<["tags" := [Seq [LStr "B-ORG"; LStr "B-LOC"]]]> Fixture.ner_batch)
  = HFTokenClassificationTrainer.preprocess_function (Fixture.self 4 None)
      Fixture.ner_batch.
Proof.
  apply (tags_of_words_without_tokens_are_irrelevant
           (Fixture.self 4 None) Fixture.ner_batch
           [Seq [LStr "HuggingFace"; LStr "Inc"]]
           {| data := {[ "input_ids" := [Seq (replicate 4 (LInt 0))] ]};
              encodings := [[None; Some 0; Some 0; None]]%nat |}
           [Seq [LStr "B-ORG"; LInt 2]]
           [Seq [LStr "B-ORG"; LStr "B-LOC"]]).
  - discriminate.
  - discriminate.
  - vm_compute. reflexivity.
  - vm_compute. reflexivity.
  - vm_compute. reflexivity.
  - split; [reflexivity|].
    intros [|i] label label' Hl Hl'; [|done]. cbn in Hl, Hl'. simplify_eq.
    exists [LStr "B-ORG"; LInt 2], [LStr "B-ORG"; LStr "B-LOC"].
    split_and!; [done..|]. intros ws w Hws Hw. cbn in Hws. simplify_eq.
    repeat (apply elem_of_cons in Hw as [Hw|Hw]; [by simplify_eq|]).
    by apply elem_of_nil in Hw.
Defined.

(** X9. When the tokens of a word stand next to each other, only the first
    of them is labelled: every later token of that word carries -100. *)
Theorem later_pieces_of_contiguous_word_are_ignored {DD float}
    (self : trainer DD float) examples out enc' tags i label ws w first k :
  HFTokenClassificationTrainer.preprocess_function self examples = (out, inr enc') →
  examples !! tagsLabel self = Some tags →
  tags !! i = Some label →
  encodings enc' !! i = Some ws →
  contiguous ws w →
  ws !! first = Some (Some w) →
  ws !! k = Some (Some w) →
  (first < k)%nat →
  assigned enc' "labels" i k = Some (LInt (-100)).
Proof.
  intros Hrun Htags Hi Hws Hcont Hfirst Hk Hlt.
  destruct k as [|k]; [lia|].
  assert (ws !! k = Some (Some w)) as Hprev.
  { destruct (decide (first = k)) as [->|Hne]; [done|].
    apply (Hcont first k (S k)); [lia|done..]. }
  destruct (TokenFacts.preprocess_function_token self examples out enc' tags
              i label ws (S k) (Some w) Hrun Htags Hi Hws Hk) as (z & Hz & Hal).
  unfold aligned_with in Hal. cbn [previous_from] in Hal. rewrite Hprev in Hal.
  cbn in Hal. rewrite decide_True in Hal by done. by rewrite Hz, Hal.
Qed.

Lemma later_pieces_of_contiguous_word_are_ignored_witness :
  assigned Fixture.ner_out "labels" 0 3 = Some (LInt (-100)).
Proof.
  apply (later_pieces_of_contiguous_word_are_ignored
           (Fixture.self 16 None) Fixture.ner_batch
           [] Fixture.ner_out [Seq [LStr "B-ORG"; LInt 2]] 0
           (Seq [LStr "B-ORG"; LInt 2])
           [None; Some 0; Some 0; Some 0; Some 1; None]%nat 0 1 3).
  - vm_compute. reflexivity.
  - vm_compute. reflexivity.
  - reflexivity.
  - reflexivity.
  - intros i j k Hlt Hi Hk.
    destruct k as [|[|[|[|[|[|k]]]]]]; cbn in Hk; simplify_eq;
      destruct j as [|[|[|j]]]; try lia; try reflexivity;
      destruct i as [|i]; cbn in Hi; simplify_eq; lia.
  - reflexivity.
  - reflexivity.
  - lia.
Defined.

(** X10. The token preprocessor adds the ["labels"] column to what the
    tokenizer returned and changes nothing else: the rows of word indices
    and every other column are those of the tokenizer. *)
Theorem token_preprocess_only_adds_labels {DD float}
    (self : trainer DD float) examples tokens enc out enc' :
  examples !! tokensLabel self = Some tokens →
  tokenizer (Model self) tokens (examples !! pairLabel self) true = inr enc →
  HFTokenClassificationTrainer.preprocess_function self examples = (out, inr enc') →
  encodings enc' = encodings enc
  ∧ is_Some (data enc' !! "labels")
  ∧ ∀ k, k ≠ "labels" → data enc' !! k = data enc !! k.
Proof.
  intros Htok Henc
    (_ & tokens' & tags & enc0 & labels & Htok' & Henc' & _ & -> & _)%TokenFacts.token_preprocess_inr.
  assert (tokens' = tokens) as -> by congruence.
  assert (enc0 = enc) as -> by congruence.
  split_and!; [done| |].
  - cbn. rewrite lookup_insert_eq. by eexists.
  - intros k Hk. cbn. by rewrite lookup_insert_ne.
Qed.

Lemma token_preprocess_only_adds_labels_witness :
  encodings Fixture.ner_out = encodings Fixture.ner_encoding
  ∧ is_Some (data Fixture.ner_out !! "labels")
  ∧ ∀ k, k ≠ "labels" → data Fixture.ner_out !! k = data Fixture.ner_encoding !! k.
Proof.
  apply (token_preprocess_only_adds_labels (Fixture.self 16 None) Fixture.ner_batch
           [Seq [LStr "HuggingFace"; LStr "Inc"]] Fixture.ner_encoding
           [] Fixture.ner_out).
  - vm_compute. reflexivity.
  - vm_compute. reflexivity.
  - vm_compute. reflexivity.
Defined.

(** X11. The text preprocessor adds the ["label"] column to what the
    tokenizer returned and changes nothing else. *)
Theorem text_preprocess_only_adds_label {DD float}
    (self : trainer DD float) examples text enc out enc' :
  examples !! textLabel self = Some text →
  tokenizer (Model self) text (examples !! pairLabel self) false = inr enc →
  HFTextClassificationTrainer.preprocess_function self examples = (out, inr enc') →
  encodings enc' = encodings enc
  ∧ is_Some (data enc' !! "label")
  ∧ ∀ k, k ≠ "label" → data enc' !! k = data enc !! k.
Proof.
  intros Htext Henc
    (_ & text' & column & enc0 & labels & Htext' & Henc' & _ & -> & _)%TextFacts.text_preprocess_inr.
  assert (text' = text) as -> by congruence.
  assert (enc0 = enc) as -> by congruence.
  split_and!; [done| |].
  - cbn. rewrite lookup_insert_eq. by eexists.
  - intros k Hk. cbn. by rewrite lookup_insert_ne.
Qed.

Lemma text_preprocess_only_adds_label_witness :
  encodings Fixture.text_out = encodings Fixture.text_encoding
  ∧ is_Some (data Fixture.text_out !! "label")
  ∧ ∀ k, k ≠ "label" → data Fixture.text_out !! k = data Fixture.text_encoding !! k.
Proof.
  apply (text_preprocess_only_adds_label (Fixture.self 16 None) Fixture.text_batch
           [Scalar (LStr "good"); Scalar (LStr "bad"); Scalar (LStr "fine")]
           Fixture.text_encoding [] Fixture.text_out).
  - vm_compute. reflexivity.
  - vm_compute. reflexivity.
  - vm_compute. reflexivity.
Defined.

(** * Further properties of the token metrics *)

Lemma kept_row_references label : ∀ prediction : list Z,
  length prediction = length label →
  (filter (λ pl : Z * Z, pl.2 ≠ ignore_index) (zip prediction label)).*2
  = filter (λ l, l ≠ ignore_index) label.
Proof.
  induction label as [|l label IH]; intros [|p prediction] Hlen; try done.
  cbn. injection Hlen as Hlen. specialize (IH prediction Hlen).
  destruct (decide (l ≠ ignore_index)); cbn; [f_equal|]; exact IH.
Qed.

Lemma kept_positions_references labels : ∀ predictions : list (list Z),
  Forall2 (λ prediction label, length prediction = length label) predictions labels →
  (kept_positions predictions labels).*2 = kept_references labels.
Proof.
  unfold kept_positions, kept_references.
  induction labels as [|label labels IH]; intros predictions Hshape.
  - by rewrite zip_with_nil_r.
  - destruct predictions as [|prediction predictions]; [by inversion Hshape|].
    apply Forall2_cons in Hshape as [Hlen Hshape]. cbn.
    rewrite !filter_app, fmap_app. f_equal; [by apply kept_row_references|].
    by apply IH.
Qed.

(** X12. When the logits have a row of scores for every reference, the
    token metrics are computed against exactly the references that are not
    -100, all of them and in their order, each with its prediction. *)
Theorem token_metrics_keep_every_real_reference `{Numpy score} `{Evaluate num}
    (logits : list (list (list score))) (labels : list (list Z)) :
  Forall2 (λ row label, length row = length label) logits labels →
  ∃ predictions,
    length predictions = length (kept_references labels)
    ∧ HFTokenClassificationTrainer.compute_metrics (logits, labels)
      = f1 predictions (kept_references labels) "weighted"
        ∪ (recall predictions (kept_references labels) "weighted" 0
           ∪ (precision predictions (kept_references labels) "weighted" 0
              ∪ accuracy predictions (kept_references labels))).
Proof.
  intros Hshape.
  set (predictions := (λ row : list (list score), argmax <$> row) <$> logits).
  assert ((kept_positions predictions labels).*2 = kept_references labels) as Hrefs.
  { apply kept_positions_references. unfold predictions.
    apply Forall2_fmap_l. eapply Forall2_impl; [exact Hshape|].
    intros row label Hlen. cbn. by rewrite length_fmap. }
  exists (kept_positions predictions labels).*1. split.
  - by rewrite <-Hrefs, !length_fmap.
  - unfold HFTokenClassificationTrainer.compute_metrics. cbn [fst snd].
    fold predictions. by rewrite true_pairs_kept, Hrefs.
Qed.

Lemma token_metrics_keep_every_real_reference_witness :
  ∃ predictions,
    length predictions = length (kept_references [[1; -100; 0]])
    ∧ @HFTokenClassificationTrainer.compute_metrics Z Fixture.numpy _ Fixture.counting
        ([[[0; 1]; [0; 1]; [1; 0]]], [[1; -100; 0]])
      = @f1 _ Fixture.counting predictions (kept_references [[1; -100; 0]]) "weighted"
        ∪ (@recall _ Fixture.counting predictions (kept_references [[1; -100; 0]]) "weighted" 0
           ∪ (@precision _ Fixture.counting predictions (kept_references [[1; -100; 0]]) "weighted" 0
              ∪ @accuracy _ Fixture.counting predictions (kept_references [[1; -100; 0]]))).
Proof.
  apply (@token_metrics_keep_every_real_reference Z Fixture.numpy _ Fixture.counting).
  repeat constructor.
Defined.

(** * Further properties of the orchestration *)

Section orchestration_steps.
Context `{DatasetAPI DD DS} `{TrainerBase DD float} `{Transformers DS float}.

Lemma token_train_unfold g (self : trainer DD float) :
  HFTokenClassificationTrainer.train g self
  = (self ← (if dataset self is None
             then emit ESetDataset;; set_dataset self
             else ret self);
     tr ← dataset_split self "train";
     self ← (if decide ("input_ids" ∉ features tr)
             then HFTokenClassificationTrainer.preprocess_dataset self
             else ret self);
     shuffle_and_train TokenMetrics g self).
Proof. reflexivity. Qed.

Lemma text_train_unfold g (self : trainer DD float) :
  HFTextClassificationTrainer.train g self
  = (self ← (if dataset self is None
             then emit ESetDataset;; set_dataset self
             else ret self);
     tr ← dataset_split self "train";
     self ← (if decide ("input_ids" ∉ features tr)
             then HFTextClassificationTrainer.preprocess_dataset self
             else ret self);
     shuffle_and_train TextMetrics g self).
Proof. reflexivity. Qed.

Lemma shuffle_and_train_eq fn g (self : trainer DD float) d :
  dataset self = Some d →
  shuffle_and_train fn g self = run_on_tokenized fn g self d.
Proof.
  intros Hd. unfold shuffle_and_train. by rewrite Hd, bind_ret_l.
Qed.

Lemma shuffle_and_train_inr fn g (self : trainer DD float) out self' hf :
  shuffle_and_train fn g self = (out, inr (self', hf)) →
  ∃ d, dataset self = Some d
    ∧ self' = with_dataset self (Some (dd_shuffle (Some 42) g d)) (data_collator self)
    ∧ out = closing_events self'
    ∧ hf = {| args := training_arguments self';
              train_dataset := train_dataset hf;
              eval_dataset := eval_dataset hf;
              hf_data_collator := data_collator self';
              compute_metrics_fn := fn |}.
Proof.
  destruct (dataset self) as [d|] eqn:Hd.
  - rewrite (shuffle_and_train_eq fn g self d Hd).
    intros (-> & -> & Hhf & _)%run_on_tokenized_inv. by exists d.
  - unfold shuffle_and_train. rewrite Hd. intros Heq. by inv_ret Heq.
Qed.

(** A run of [train] that returns ends with [shuffle_and_train]. *)
Lemma token_train_inr_steps g (self : trainer DD float) out self' hf :
  HFTokenClassificationTrainer.train g self = (out, inr (self', hf)) →
  ∃ pre post self2,
    out = pre ++ post
    ∧ shuffle_and_train TokenMetrics g self2 = (post, inr (self', hf)).
Proof.
  rewrite token_train_unfold.
  intros (o1 & self1 & o2 & _ & Hrun & ->)%bind_inr.
  apply bind_inr in Hrun as (o3 & tr & o4 & _ & Hrun & ->).
  apply bind_inr in Hrun as (o5 & self2 & o6 & _ & Hrun & ->).
  exists (o1 ++ o3 ++ o5), o6, self2. split; [|done].
  by rewrite <-!app_assoc.
Qed.

Lemma text_train_inr_steps g (self : trainer DD float) out self' hf :
  HFTextClassificationTrainer.train g self = (out, inr (self', hf)) →
  ∃ pre post self2,
    out = pre ++ post
    ∧ shuffle_and_train TextMetrics g self2 = (post, inr (self', hf)).
Proof.
  rewrite text_train_unfold.
  intros (o1 & self1 & o2 & _ & Hrun & ->)%bind_inr.
  apply bind_inr in Hrun as (o3 & tr & o4 & _ & Hrun & ->).
  apply bind_inr in Hrun as (o5 & self2 & o6 & _ & Hrun & ->).
  exists (o1 ++ o3 ++ o5), o6, self2. split; [|done].
  by rewrite <-!app_assoc.
Qed.

End orchestration_steps.

(** X13. Without a ["train"] split both [train] functions raise the
    [KeyError] of that name at once: nothing is preprocessed, shuffled,
    trained or saved, and nothing is written. *)
Theorem train_without_train_split `{DatasetAPI DD DS} `{TrainerBase DD float} `{Transformers DS float}
    (self : trainer DD float) d g :
  dataset self = Some d →
  dd_split d "train" = None →
  HFTokenClassificationTrainer.train g self = ([], inl (KeyError "train"))
  ∧ HFTextClassificationTrainer.train g self = ([], inl (KeyError "train")).
Proof.
  intros Hd Htr.
  rewrite token_train_unfold, text_train_unfold, Hd, !bind_ret_l.
  unfold dataset_split. by rewrite Hd, Htr.
Qed.

Lemma train_without_train_split_witness :
  @HFTokenClassificationTrainer.train _ _ Fixture.datasets _ Fixture.base Fixture.transformers 7
    (Fixture.orchestrator (Some Fixture.valid_only_dataset))
  = ([], inl (KeyError "train"))
  ∧ @HFTextClassificationTrainer.train _ _ Fixture.datasets _ Fixture.base Fixture.transformers 7
      (Fixture.orchestrator (Some Fixture.valid_only_dataset))
    = ([], inl (KeyError "train")).
Proof.
  apply (@train_without_train_split _ _ Fixture.datasets _ Fixture.base Fixture.transformers
           (Fixture.orchestrator (Some Fixture.valid_only_dataset))
           Fixture.valid_only_dataset 7%nat).
  - reflexivity.
  - vm_compute. reflexivity.
Defined.

(** X14. A tokenized dataset whose shuffled version has no ["valid"] split:
    once [transformers.TrainingArguments] has accepted the configuration of
    [self], both [train] functions raise the [KeyError] of that name. The
    shuffle is all that has happened by then: training is never started and
    no model is saved. *)
Theorem train_without_valid_split
    `{DatasetAPI DD DS} `{TrainerBase DD float} `{Transformers DS float}
    (self : trainer DD float) d tr tr' g :
  dataset self = Some d →
  dd_split d "train" = Some tr →
  "input_ids" ∈ features tr →
  dd_split (dd_shuffle (Some 42) g d) "train" = Some tr' →
  dd_split (dd_shuffle (Some 42) g d) "valid" = None →
  new_TrainingArguments
    (training_arguments
       (with_dataset self (Some (dd_shuffle (Some 42) g d)) (data_collator self)))
  = inr () →
  HFTokenClassificationTrainer.train g self
  = ([EShuffle (Some 42)], inl (KeyError "valid"))
  ∧ HFTextClassificationTrainer.train g self
    = ([EShuffle (Some 42)], inl (KeyError "valid")).
Proof.
  intros Hd Htr Hin Htr' Hva Hargs.
  rewrite (token_train_tail g self d tr Hd Htr Hin).
  rewrite (text_train_tail g self d tr Hd Htr Hin).
  unfold run_on_tokenized. cbv zeta. rewrite Hargs.
  unfold dataset_split. cbn [dataset with_dataset]. by rewrite Htr', Hva.
Qed.

Lemma train_without_valid_split_witness :
  @HFTokenClassificationTrainer.train _ _ Fixture.datasets _ Fixture.base Fixture.transformers 7
    (Fixture.orchestrator (Some Fixture.train_only_dataset))
  = ([EShuffle (Some 42)], inl (KeyError "valid"))
  ∧ @HFTextClassificationTrainer.train _ _ Fixture.datasets _ Fixture.base Fixture.transformers 7
      (Fixture.orchestrator (Some Fixture.train_only_dataset))
    = ([EShuffle (Some 42)], inl (KeyError "valid")).
Proof.
  apply (@train_without_valid_split _ _ Fixture.datasets _ Fixture.base Fixture.transformers
           (Fixture.orchestrator (Some Fixture.train_only_dataset))
           Fixture.train_only_dataset
           {| Fixture.rows := seq 0 50;
              Fixture.split_features := {[ "tokens"; "tags"; "input_ids"; "labels" ]} |}
           {| Fixture.rows := rotate 42 (seq 0 50);
              Fixture.split_features := {[ "tokens"; "tags"; "input_ids"; "labels" ]} |}
           7%nat).
  - reflexivity.
  - vm_compute. reflexivity.
  - cbn. set_solver.
  - vm_compute. reflexivity.
  - vm_compute. reflexivity.
  - vm_compute. reflexivity.
Defined.

(** With a configuration that the library rejects, the same dataset makes
    [train] raise the library's error instead: the arguments are checked
    before the splits are looked up. *)
Example train_with_rejected_configuration :
  @HFTokenClassificationTrainer.train _ _ Fixture.datasets _ Fixture.base Fixture.transformers 7
    (Fixture.mismatched_orchestrator (Some Fixture.train_only_dataset))
  = ([EShuffle (Some 42)], inl (External "load_best_model_at_end")).
Proof. vm_compute. reflexivity. Qed.

(** X15. When the dataset is not tokenized and mapping the preprocessor
    over it fails, [train] fails the same way right after the events of the
    mapping: there is no shuffle, no training and no saved model. *)
Theorem failing_map_aborts_train `{DatasetAPI DD DS} `{TrainerBase DD float} `{Transformers DS float}
    (self : trainer DD float) d tr g out e :
  dataset self = Some d →
  dd_split d "train" = Some tr →
  "input_ids" ∉ features tr →
  (dd_map (HFTokenClassificationTrainer.preprocess_function self) d = (out, inl e) →
   HFTokenClassificationTrainer.train g self
   = (tokenizing_notice self ++ EMap :: out, inl e))
  ∧ (dd_map (HFTextClassificationTrainer.preprocess_function self) d = (out, inl e) →
     HFTextClassificationTrainer.train g self
     = (tokenizing_notice self ++ EMap :: out, inl e)).
Proof.
  intros Hd Htr Hin. split; intros Hmap.
  - rewrite token_train_unfold, Hd, bind_ret_l.
    rewrite (dataset_split_Some self d "train" tr Hd Htr), bind_ret_l.
    rewrite decide_True by done.
    unfold HFTokenClassificationTrainer.preprocess_dataset, tokenizing_notice.
    rewrite Hd, Hmap. by destruct (verbose self).
  - rewrite text_train_unfold, Hd, bind_ret_l.
    rewrite (dataset_split_Some self d "train" tr Hd Htr), bind_ret_l.
    rewrite decide_True by done.
    unfold HFTextClassificationTrainer.preprocess_dataset, tokenizing_notice.
    rewrite Hd, bind_ret_l, Hd, Hmap. by destruct (verbose self).
Qed.

(** A train split with a tag the model does not know. *)
Lemma failing_map_aborts_train_witness :
  @HFTokenClassificationTrainer.train _ _ Fixture.batches _ Fixture.batch_base Fixture.batch_transformers 7
    (Fixture.batch_orchestrator (Some Fixture.unknown_tag_dataset))
  = (tokenizing_notice (Fixture.batch_orchestrator (Some Fixture.unknown_tag_dataset))
     ++ EMap :: [EStderr labels_warning],
     inl (KeyError "B-LOC")).
Proof.
  apply (proj1 (@failing_map_aborts_train _ _ Fixture.batches _ Fixture.batch_base Fixture.batch_transformers
                  (Fixture.batch_orchestrator (Some Fixture.unknown_tag_dataset))
                  Fixture.unknown_tag_dataset Fixture.unknown_tag_batch 7%nat
                  [EStderr labels_warning] (KeyError "B-LOC")
                  eq_refl eq_refl
                  ltac:(vm_compute; set_solver))).
  vm_compute. reflexivity.
Defined.

(** X16. On a dataset that is not tokenized, [train] maps the preprocessor
    over it once, stores the mapped dataset and the collator of its task,
    and from there does exactly what it does on a tokenized dataset: it
    shuffles the mapped dataset with seed 42 and trains on its splits. *)
Theorem train_maps_then_shuffles `{DatasetAPI DD DS} `{TrainerBase DD float} `{Transformers DS float}
    (self : trainer DD float) d tr g out d' :
  dataset self = Some d →
  dd_split d "train" = Some tr →
  "input_ids" ∉ features tr →
  (dd_map (HFTokenClassificationTrainer.preprocess_function self) d = (out, inr d') →
   let self2 := with_dataset self (Some d') (Some DataCollatorForTokenClassification) in
   HFTokenClassificationTrainer.train g self
   = (tokenizing_notice self ++ EMap :: out
        ++ (run_on_tokenized TokenMetrics g self2 d').1,
      (run_on_tokenized TokenMetrics g self2 d').2))
  ∧ (dd_map (HFTextClassificationTrainer.preprocess_function self) d = (out, inr d') →
     let self2 := with_dataset self (Some d') (Some DataCollatorWithPadding) in
     HFTextClassificationTrainer.train g self
     = (tokenizing_notice self ++ EMap :: out
          ++ (run_on_tokenized TextMetrics g self2 d').1,
        (run_on_tokenized TextMetrics g self2 d').2)).
Proof.
  intros Hd Htr Hin. split; intros Hmap self2.
  - rewrite token_train_unfold, Hd, bind_ret_l.
    rewrite (dataset_split_Some self d "train" tr Hd Htr), bind_ret_l.
    rewrite decide_True by done.
    assert (HFTokenClassificationTrainer.preprocess_dataset self
            = (tokenizing_notice self ++ EMap :: out, inr self2)) as Hprep.
    { unfold HFTokenClassificationTrainer.preprocess_dataset, tokenizing_notice.
      rewrite Hd, Hmap. destruct (verbose self); cbn; by rewrite app_nil_r. }
    rewrite (bind_out_inr _ _ _ _ Hprep).
    rewrite (shuffle_and_train_eq TokenMetrics g self2 d' eq_refl).
    by rewrite <-app_assoc.
  - rewrite text_train_unfold, Hd, bind_ret_l.
    rewrite (dataset_split_Some self d "train" tr Hd Htr), bind_ret_l.
    rewrite decide_True by done.
    assert (HFTextClassificationTrainer.preprocess_dataset self
            = (tokenizing_notice self ++ EMap :: out, inr self2)) as Hprep.
    { unfold HFTextClassificationTrainer.preprocess_dataset, tokenizing_notice.
      rewrite Hd, bind_ret_l, Hd, Hmap.
      destruct (verbose self); cbn; by rewrite app_nil_r. }
    rewrite (bind_out_inr _ _ _ _ Hprep).
    rewrite (shuffle_and_train_eq TextMetrics g self2 d' eq_refl).
    by rewrite <-app_assoc.
Qed.

Lemma train_maps_then_shuffles_witness :
  let self := Fixture.batch_orchestrator (Some Fixture.ner_dataset) in
  let self2 := with_dataset self (Some Fixture.mapped_ner_dataset)
                 (Some DataCollatorForTokenClassification) in
  @HFTokenClassificationTrainer.train _ _ Fixture.batches _ Fixture.batch_base Fixture.batch_transformers 7 self
  = (tokenizing_notice self ++ EMap :: []
       ++ (@run_on_tokenized _ _ Fixture.batches _ Fixture.batch_transformers TokenMetrics 7 self2
             Fixture.mapped_ner_dataset).1,
     (@run_on_tokenized _ _ Fixture.batches _ Fixture.batch_transformers TokenMetrics 7 self2
        Fixture.mapped_ner_dataset).2).
Proof.
  apply (proj1 (@train_maps_then_shuffles _ _ Fixture.batches _ Fixture.batch_base Fixture.batch_transformers
                  (Fixture.batch_orchestrator (Some Fixture.ner_dataset))
                  Fixture.ner_dataset Fixture.ner_batch 7%nat
                  [] Fixture.mapped_ner_dataset
                  eq_refl eq_refl
                  ltac:(vm_compute; set_solver))).
  vm_compute. reflexivity.
Defined.

(** X17. Every run of [train] that returns ends with the same events, in
    this order: the shuffle with seed 42, the training, the notice about
    saving when [verbose] is set, and the saving of the model. *)
Theorem train_ends_with_shuffle_train_save `{DatasetAPI DD DS} `{TrainerBase DD float} `{Transformers DS float}
    g (self : trainer DD float) out self' hf :
  HFTokenClassificationTrainer.train g self = (out, inr (self', hf))
  ∨ HFTextClassificationTrainer.train g self = (out, inr (self', hf)) →
  ∃ pre, out = pre ++ closing_events self'.
Proof.
  intros [Hrun|Hrun].
  - apply token_train_inr_steps in Hrun as (pre & post & self2 & -> & Hrun).
    apply shuffle_and_train_inr in Hrun as (d & _ & _ & -> & _). by exists pre.
  - apply text_train_inr_steps in Hrun as (pre & post & self2 & -> & Hrun).
    apply shuffle_and_train_inr in Hrun as (d & _ & _ & -> & _). by exists pre.
Qed.

(** X18. The trainer that a returning run of [train] builds is set up from
    the attributes of [self]: the output directory, the two batch sizes,
    which are both [batchSize], and the rest of the training arguments; the
    CPU is forced exactly when the model's device reads ["cpu"]; the
    collator is the one stored in [self]; and the metric function is the
    one of the task. *)
Theorem train_configures_trainer_from_self `{DatasetAPI DD DS} `{TrainerBase DD float} `{Transformers DS float}
    g (self : trainer DD float) out self' hf :
  (HFTokenClassificationTrainer.train g self = (out, inr (self', hf)) →
   compute_metrics_fn hf = TokenMetrics ∧ configured_from self' hf)
  ∧ (HFTextClassificationTrainer.train g self = (out, inr (self', hf)) →
     compute_metrics_fn hf = TextMetrics ∧ configured_from self' hf).
Proof.
  assert (∀ fn post (self2 : trainer DD float),
            shuffle_and_train fn g self2 = (post, inr (self', hf)) →
            compute_metrics_fn hf = fn ∧ configured_from self' hf) as Htail.
  { intros fn post self2 (d & _ & _ & _ & Hhf)%shuffle_and_train_inr.
    rewrite Hhf. unfold configured_from. cbn.
    split_and!; try done. by rewrite bool_decide_eq_true. }
  split; intros Hrun.
  - apply token_train_inr_steps in Hrun as (pre & post & self2 & _ & Hrun).
    by apply Htail in Hrun.
  - apply text_train_inr_steps in Hrun as (pre & post & self2 & _ & Hrun).
    by apply Htail in Hrun.
Qed.

Lemma train_ends_with_shuffle_train_save_witness :
  let self := Fixture.orchestrator (Some Fixture.tokenized_dataset) in
  let self' := with_dataset self
                 (Some (@dd_shuffle _ _ Fixture.datasets (Some 42) 7
                          Fixture.tokenized_dataset)) None in
  ∃ pre,
    (@HFTokenClassificationTrainer.train _ _ Fixture.datasets _ Fixture.base Fixture.transformers 7 self).1
    = pre ++ closing_events self'.
Proof.
  intros self self'.
  apply (@train_ends_with_shuffle_train_save _ _ Fixture.datasets _ Fixture.base Fixture.transformers
           7%nat self _ self'
           {| args := training_arguments self';
              train_dataset :=
                {| Fixture.rows := rotate 42 (seq 0 50);
                   Fixture.split_features :=
                     {[ "tokens"; "tags"; "input_ids"; "labels" ]} |};
              eval_dataset :=
                {| Fixture.rows := rotate 42 (seq 50 10);
                   Fixture.split_features :=
                     {[ "tokens"; "tags"; "input_ids"; "labels" ]} |};
              hf_data_collator := None;
              compute_metrics_fn := TokenMetrics |}).
  left. vm_compute. reflexivity.
Defined.

Lemma train_configures_trainer_from_self_witness :
  let self := Fixture.orchestrator (Some Fixture.tokenized_dataset) in
  let self' := with_dataset self
                 (Some (@dd_shuffle _ _ Fixture.datasets (Some 42) 7
                          Fixture.tokenized_dataset)) None in
  let hf := {| args := training_arguments self';
               train_dataset :=
                 {| Fixture.rows := rotate 42 (seq 0 50);
                    Fixture.split_features :=
                      {[ "tokens"; "tags"; "input_ids"; "labels" ]} |};
               eval_dataset :=
                 {| Fixture.rows := rotate 42 (seq 50 10);
                    Fixture.split_features :=
                      {[ "tokens"; "tags"; "input_ids"; "labels" ]} |};
               hf_data_collator := None;
               compute_metrics_fn := TextMetrics |} in
  compute_metrics_fn hf = TextMetrics ∧ configured_from self' hf.
Proof.
  intros self self' hf.
  apply (proj2 (@train_configures_trainer_from_self _ _ Fixture.datasets _ Fixture.base Fixture.transformers
                  7%nat self
                  (@HFTextClassificationTrainer.train _ _ Fixture.datasets _
                     Fixture.base Fixture.transformers 7 self).1
                  self' hf)).
  vm_compute. reflexivity.
Defined.

Lemma update_labels_resolved_prefix l2i pre : ∀ rest acc,
  (∀ c, c ∈ pre → ∃ x, c = Scalar x ∧ is_Some (resolved l2i x)) →
  ∃ ids, length ids = length pre
    ∧ HFTextClassificationTrainer.update_labels l2i (pre ++ rest) acc
      = HFTextClassificationTrainer.update_labels l2i rest (acc ++ ids).
Proof.
  induction pre as [|c pre IH]; intros rest acc Hpre.
  - exists []. by rewrite app_nil_r.
  - destruct (Hpre c) as (x & -> & z & Hz); [by left|].
    destruct (IH rest (acc ++ [z])) as (ids & Hlen & Heq).
    { intros c Hc. apply Hpre. by right. }
    exists (z :: ids). split; [cbn; by rewrite Hlen|].
    cbn [app HFTextClassificationTrainer.update_labels].
    rewrite (update_label_resolved l2i x z Hz), bind_nil_inr, Heq.
    by rewrite <-app_assoc.
Qed.

(** X19. The text preprocessor stops at the first label it cannot resolve:
    when the labels before an unknown name are [int]s or known names, the
    call writes the warning once and raises the [KeyError] of that very
    name, whatever follows it in the column. *)
Theorem text_preprocess_stops_at_first_unknown_label {DD float}
    (self : trainer DD float) examples text enc pre name post :
  examples !! textLabel self = Some text →
  tokenizer (Model self) text (examples !! pairLabel self) false = inr enc →
  examples !! "label" = Some (pre ++ Scalar (LStr name) :: post) →
  (∀ c, c ∈ pre → ∃ x, c = Scalar x ∧ is_Some (resolved (label2id (Model self)) x)) →
  label2id (Model self) !! name = None →
  HFTextClassificationTrainer.preprocess_function self examples
  = ([EStderr labels_warning], inl (KeyError name)).
Proof.
  intros Htext Henc Hcol Hpre Hname.
  unfold HFTextClassificationTrainer.preprocess_function, getitem.
  rewrite Htext, bind_ret_l, Henc. unfold lift. rewrite bind_nil_inr.
  rewrite Hcol, bind_ret_l.
  destruct (update_labels_resolved_prefix (label2id (Model self)) pre
              (Scalar (LStr name) :: post) [] Hpre) as (ids & _ & ->).
  cbn [HFTextClassificationTrainer.update_labels].
  by rewrite (update_label_unknown _ _ Hname).
Qed.

Lemma text_preprocess_stops_at_first_unknown_label_witness :
  HFTextClassificationTrainer.preprocess_function
    (Fixture.self 16 None) Fixture.unknown_label_batch
  = ([EStderr labels_warning], inl (KeyError "neutral")).
Proof.
  apply (text_preprocess_stops_at_first_unknown_label
           (Fixture.self 16 None) Fixture.unknown_label_batch
           [Scalar (LStr "good"); Scalar (LStr "bad")]
           {| data := {[ "input_ids" := replicate 2 (Seq (replicate 3 (LInt 0))) ]};
              encodings := replicate 2 [None; Some 0%nat; None] |}
           [Scalar (LInt 1)] "neutral" []).
  - vm_compute. reflexivity.
  - vm_compute. reflexivity.
  - vm_compute. reflexivity.
  - intros c Hc. apply elem_of_cons in Hc as [->|Hc].
    + eexists. split; [done|by eexists].
    + by apply elem_of_nil in Hc.
  - vm_compute. reflexivity.
Defined.
